(** * PyNDN2: the Data packet's wire-encoding cache and the IdentityStorage base class

    A shallow embedding of [python/pyndn/data.py] and
    [python/pyndn/security/identity/identity_storage.py].

    Python objects are records, methods are computations in a state and
    exception monad over the object they are called on, and the classes the
    two modules import but do not define (Blob, SignedBlob, ChangeCounter,
    Name, MetaInfo, WireFormat, Common) are modelled from the specification. *)

From Stdlib Require Import ZArith.
From Stdlib.Strings Require Import Byte.
From stdpp Require Import gmap strings list pretty.

Open Scope Z_scope.

(* ===================================================================== *)
(** ** Python: exceptions, results, the method monad, global names *)
(* ===================================================================== *)

Module py.

(** The exceptions the two modules raise or let through. [WireFormatError]
    stands for whatever a codec raises. *)
Inductive Exn : Type :=
| RuntimeError (msg : string)
| SecurityException (msg : string)
| NameError (name : string)
| WireFormatError (msg : string).

Inductive Res (A : Type) : Type :=
| Ok (a : A)
| Raise (e : Exn).
Arguments Ok {A} a.
Arguments Raise {A} e.

(** A method body: it reads and writes the state [S] and either returns a
    value or raises. What was written before a raise stays written. *)
Definition M (S A : Type) : Type := S -> Res A * S.

#[global] Instance M_ret {S} : MRet (M S) := fun A a s => (Ok a, s).

#[global] Instance M_bind {S} : MBind (M S) := fun A B k m s =>
  match m s with
  | (Ok a, s') => k a s'
  | (Raise e, s') => (Raise e, s')
  end.

Definition raise {S A} (e : Exn) : M S A := fun s => (Raise e, s).
Definition gets {S A} (f : S -> A) : M S A := fun s => (Ok (f s), s).
Definition modify {S} (f : S -> S) : M S unit := fun s => (Ok tt, f s).
Definition lift {S A} (r : Res A) : M S A := fun s => (r, s).

(** Run a method for its effect on the state only. *)
Definition exec {S A} (m : M S A) (s : S) : S := snd (m s).

(** A bare identifier in a function body that is not a local is looked up
    in the module's global names (the builtins hold none of the names
    used below); an unbound one raises NameError. *)
Definition load_global {S} (globals : list string) (x : string) : M S unit :=
  if bool_decide (x ∈ globals) then mret tt else raise (NameError x).

End py.
Import py.

(* ===================================================================== *)
(** ** pyndn.util, pyndn.name, pyndn.meta_info, pyndn.encoding *)
(* ===================================================================== *)

Module util.

(** Modelled from the spec: Blob (pyndn.util.blob is not among the
    sources). "ByteBlob: immutable byte sequence, shared ownership,
    isNull() denotes the absence of data (distinct from empty)". An
    immutable buffer is modelled by its contents. *)
Definition Blob : Type := option (list byte).

(** What a Blob can be built from: another Blob, or a caller-owned array
    of ints. *)
Inductive BlobArg : Type :=
| ArgBlob (b : Blob)
| ArgArray (a : list byte).

(** Modelled from the spec: the Blob constructor with copy = True, the
    only way data.py calls it. "explicit copy-on-construct option when
    provenance must not alias caller-owned memory": from an array the
    Blob holds a copy of the bytes as they are at the call; from a Blob
    it is another pointer to the same buffer. *)
Definition Blob_new (value : BlobArg) : Blob :=
  match value with
  | ArgBlob b => b
  | ArgArray a => Some a
  end.

Definition Blob_null : Blob := None.
Definition isNull (b : Blob) : bool :=
  match b with None => true | Some _ => false end.
Definition buf (b : Blob) : option (list byte) := b.

(** Modelled from the spec: SignedBlob. "a ByteBlob plus (signedBegin,
    signedEnd) offsets into that same buffer". *)
Record SignedBlob : Type := {
  sb_blob : Blob;
  signedPortionBeginOffset : Z;
  signedPortionEndOffset : Z
}.

Definition SignedBlob_null : SignedBlob :=
  {| sb_blob := Blob_null;
     signedPortionBeginOffset := 0; signedPortionEndOffset := 0 |}.

Definition SignedBlob_new (value : BlobArg) (b e : Z) : SignedBlob :=
  {| sb_blob := Blob_new value;
     signedPortionBeginOffset := b; signedPortionEndOffset := e |}.

Definition sb_isNull (s : SignedBlob) : bool := isNull (sb_blob s).

(** A type whose objects expose a change counter of their own. *)
Class ChangeCounted (T : Type) := targetChangeCount : T -> Z.

(** Modelled from the spec: ChangeCounter (pyndn.util.change_counter is
    not among the sources). It wraps a target and "tracks the last-observed
    counter value". *)
Record ChangeCounter (T : Type) : Type := {
  cc_target : T;
  cc_baseline : Z
}.
Arguments cc_target {T} _.
Arguments cc_baseline {T} _.

(** The spec fixes get, the replacement done by set, and checkChanged. It
    does not say which baseline the constructor and set leave behind
    (the target's current count, the old baseline, ...), so that choice
    is an interface: everything below holds for every instance. *)
Class Baselines : Type := {
  baseline_new : Z -> Z;
  baseline_set : Z -> Z -> Z
}.

Section ChangeCounter.
Context {T : Type} `{ChangeCounted T} `{Baselines}.

Definition ChangeCounter_new (target : T) : ChangeCounter T :=
  {| cc_target := target;
     cc_baseline := baseline_new (targetChangeCount target) |}.

Definition get (c : ChangeCounter T) : T := cc_target c.

Definition set (c : ChangeCounter T) (target : T) : ChangeCounter T :=
  {| cc_target := target;
     cc_baseline :=
       baseline_set (cc_baseline c) (targetChangeCount target) |}.

(** "compares the wrapped value's own change counter against the
    last-seen baseline; if different, updates the baseline and returns
    true; otherwise returns false". *)
Definition checkChanged (c : ChangeCounter T) : bool * ChangeCounter T :=
  let count := targetChangeCount (cc_target c) in
  if bool_decide (cc_baseline c ≠ count)
  then (true, {| cc_target := cc_target c; cc_baseline := count |})
  else (false, c).

Definition pending (c : ChangeCounter T) : bool := fst (checkChanged c).
End ChangeCounter.

End util.
Import util.

Module name.

(** Modelled from the spec: Name (pyndn.name is not among the sources):
    a list of components with a change counter that every in-place
    change advances. A component is a byte string. *)
Definition Component : Type := string.

Record Name : Type := {
  components : list Component;
  name_changeCount : Z
}.

#[global] Instance Name_counted : ChangeCounted Name := name_changeCount.

(** What Name(...) is called on: a Name (the copy constructor) or
    anything else that denotes a list of components (None, a URI). *)
Inductive NameArg : Type :=
| ArgName (n : Name)
| ArgOther (cs : list Component).

Definition Name_new (value : NameArg) : Name :=
  match value with
  | ArgName n => {| components := components n; name_changeCount := 0 |}
  | ArgOther cs => {| components := cs; name_changeCount := 0 |}
  end.

(** name.append(component) changes the Name in place and returns it. *)
Definition append (n : Name) (c : Component) : Name :=
  {| components := components n ++ [c];
     name_changeCount := name_changeCount n + 1 |}.

End name.
Import name.

Module meta_info.

(** Modelled from the spec: MetaInfo (pyndn.meta_info is not among the
    sources): "content-type/freshness metadata", with a change counter
    like Name's. *)
Record MetaInfo : Type := {
  mi_type : Z;
  mi_freshnessPeriod : option Z;
  mi_changeCount : Z
}.

#[global] Instance MetaInfo_counted : ChangeCounted MetaInfo := mi_changeCount.

(** MetaInfo() and the copy constructor MetaInfo(other). *)
Definition MetaInfo_new (value : option MetaInfo) : MetaInfo :=
  match value with
  | None =>
      {| mi_type := 0; mi_freshnessPeriod := None; mi_changeCount := 0 |}
  | Some m =>
      {| mi_type := mi_type m; mi_freshnessPeriod := mi_freshnessPeriod m;
         mi_changeCount := 0 |}
  end.

(** The metadata by value. *)
Definition mi_fields (m : MetaInfo) : Z * option Z :=
  (mi_type m, mi_freshnessPeriod m).

End meta_info.
Import meta_info.

Module encoding.

(** What a packet holds, by value: what an encoder reads and what a
    decoder produces. *)
Record Fields : Type := {
  f_name : list Component;
  f_metaInfo : Z * option Z;
  f_content : Blob
}.

(** Modelled from the spec: WireFormat (pyndn.encoding is not among the
    sources). "encode(packet) → (bytes, signedRangeBegin,
    signedRangeEnd), decode(packet, bytes) → (signedRangeBegin,
    signedRangeEnd) with packet populated as a side effect"; both may
    raise; encode is "deterministic given identical packet state";
    the default codec is "compared by identity". Formats are the
    elements of a type with decidable equality, and the process-wide
    default is one of them. *)
Class WireFormats (WireFormat : Type) : Type := {
  WireFormat_eq_dec :: EqDecision WireFormat;
  getDefaultWireFormat : WireFormat;
  encodeData : WireFormat -> Fields -> Res (list byte * Z * Z);
  decodeData : WireFormat -> option (list byte) -> Res (Fields * Z * Z)
}.

(** The codec calls a test would count. *)
Inductive CodecCall (WireFormat : Type) : Type :=
| EncodeData (wf : WireFormat)
| DecodeData (wf : WireFormat).
Arguments EncodeData {WireFormat} wf.
Arguments DecodeData {WireFormat} wf.

Definition isEncode {WireFormat} (c : CodecCall WireFormat) : bool :=
  match c with EncodeData _ => true | DecodeData _ => false end.

(** How many times encodeData was called. *)
Definition encodeCount {WireFormat} (l : list (CodecCall WireFormat)) : nat :=
  length (filter (fun c => isEncode c = true) l).

End encoding.
Import encoding.


(* ===================================================================== *)
(** ** pyndn.data: the Data class *)
(* ===================================================================== *)

Module data.

Record Data (WireFormat : Type) : Type := {
  _name : ChangeCounter Name;
  _metaInfo : ChangeCounter MetaInfo;
  _content : Blob;
  _defaultWireEncoding : SignedBlob;
  _defaultWireEncodingFormat : option WireFormat;
  _getDefaultWireEncodingChangeCount : Z;
  _changeCount : Z
}.
Arguments _name {WireFormat} _.
Arguments _metaInfo {WireFormat} _.
Arguments _content {WireFormat} _.
Arguments _defaultWireEncoding {WireFormat} _.
Arguments _defaultWireEncodingFormat {WireFormat} _.
Arguments _getDefaultWireEncodingChangeCount {WireFormat} _.
Arguments _changeCount {WireFormat} _.

(** What a method of Data runs in: the packet it is called on, and the
    codec calls made so far. *)
Record World (WireFormat : Type) : Type := {
  self : Data WireFormat;
  codecCalls : list (CodecCall WireFormat)
}.
Arguments self {WireFormat} _.
Arguments codecCalls {WireFormat} _.

Section Data.
Context {WireFormat : Type} `{WireFormats WireFormat} `{Baselines}.

#[local] Abbreviation Data := (Data WireFormat).
#[local] Abbreviation World := (World WireFormat).

(** *** Attribute assignment *)

Definition upd_name (d : Data) (v : ChangeCounter Name) : Data :=
  {| _name := v; _metaInfo := _metaInfo d; _content := _content d;
     _defaultWireEncoding := _defaultWireEncoding d;
     _defaultWireEncodingFormat := _defaultWireEncodingFormat d;
     _getDefaultWireEncodingChangeCount := _getDefaultWireEncodingChangeCount d;
     _changeCount := _changeCount d |}.

Definition upd_metaInfo (d : Data) (v : ChangeCounter MetaInfo) : Data :=
  {| _name := _name d; _metaInfo := v; _content := _content d;
     _defaultWireEncoding := _defaultWireEncoding d;
     _defaultWireEncodingFormat := _defaultWireEncodingFormat d;
     _getDefaultWireEncodingChangeCount := _getDefaultWireEncodingChangeCount d;
     _changeCount := _changeCount d |}.

Definition upd_content (d : Data) (v : Blob) : Data :=
  {| _name := _name d; _metaInfo := _metaInfo d; _content := v;
     _defaultWireEncoding := _defaultWireEncoding d;
     _defaultWireEncodingFormat := _defaultWireEncodingFormat d;
     _getDefaultWireEncodingChangeCount := _getDefaultWireEncodingChangeCount d;
     _changeCount := _changeCount d |}.

Definition upd_defaultWireEncoding (d : Data) (v : SignedBlob) : Data :=
  {| _name := _name d; _metaInfo := _metaInfo d; _content := _content d;
     _defaultWireEncoding := v;
     _defaultWireEncodingFormat := _defaultWireEncodingFormat d;
     _getDefaultWireEncodingChangeCount := _getDefaultWireEncodingChangeCount d;
     _changeCount := _changeCount d |}.

Definition upd_defaultWireEncodingFormat (d : Data) (v : option WireFormat)
  : Data :=
  {| _name := _name d; _metaInfo := _metaInfo d; _content := _content d;
     _defaultWireEncoding := _defaultWireEncoding d;
     _defaultWireEncodingFormat := v;
     _getDefaultWireEncodingChangeCount := _getDefaultWireEncodingChangeCount d;
     _changeCount := _changeCount d |}.

Definition upd_getDefaultWireEncodingChangeCount (d : Data) (v : Z) : Data :=
  {| _name := _name d; _metaInfo := _metaInfo d; _content := _content d;
     _defaultWireEncoding := _defaultWireEncoding d;
     _defaultWireEncodingFormat := _defaultWireEncodingFormat d;
     _getDefaultWireEncodingChangeCount := v;
     _changeCount := _changeCount d |}.

Definition upd_changeCount (d : Data) (v : Z) : Data :=
  {| _name := _name d; _metaInfo := _metaInfo d; _content := _content d;
     _defaultWireEncoding := _defaultWireEncoding d;
     _defaultWireEncodingFormat := _defaultWireEncodingFormat d;
     _getDefaultWireEncodingChangeCount := _getDefaultWireEncodingChangeCount d;
     _changeCount := v |}.

(** Read an attribute of self; assign one. *)
Definition attr {A} (f : Data -> A) : M World A := gets (fun w => f (self w)).

Definition assign (f : Data -> Data) : M World unit :=
  modify (fun w => {| self := f (self w); codecCalls := codecCalls w |}).

(** self._name.checkChanged() and self._metaInfo.checkChanged(): the
    tracker is updated in place. *)
Definition name_checkChanged : M World bool :=
  c ← attr _name;
  assign (fun d => upd_name d (snd (checkChanged c))) ;;
  mret (fst (checkChanged c)).

Definition metaInfo_checkChanged : M World bool :=
  c ← attr _metaInfo;
  assign (fun d => upd_metaInfo d (snd (checkChanged c))) ;;
  mret (fst (checkChanged c)).

(** *** The methods, in the order of data.py *)

Definition __init__ (name : NameArg) : Data :=
  {| _name := ChangeCounter_new
       (match name with ArgName n => n | ArgOther _ => Name_new name end);
     _metaInfo := ChangeCounter_new (MetaInfo_new None);
     _content := Blob_null;
     _defaultWireEncoding := SignedBlob_null;
     _defaultWireEncodingFormat := None;
     _getDefaultWireEncodingChangeCount := 0;
     _changeCount := 0 |}.

Definition getName : M World Name := c ← attr _name; mret (get c).
Definition getMetaInfo : M World MetaInfo := c ← attr _metaInfo; mret (get c).
Definition getContent : M World Blob := attr _content.

(** The packet by value: what getName(), getMetaInfo() and getContent()
    show to a codec. *)
Definition fields (d : Data) : Fields :=
  {| f_name := components (get (_name d));
     f_metaInfo := mi_fields (get (_metaInfo d));
     f_content := _content d |}.

Definition getChangeCount : M World Z :=
  changed ← name_checkChanged;
  changed ← (c ← metaInfo_checkChanged; mret (c || changed));
  (if changed : bool
   then assign (fun d => upd_changeCount d (_changeCount d + 1))
   else mret tt) ;;
  attr _changeCount.

Definition getDefaultWireEncoding : M World SignedBlob :=
  recorded ← attr _getDefaultWireEncodingChangeCount;
  current ← getChangeCount;
  (if bool_decide (recorded ≠ current)
   then
     assign (fun d => upd_defaultWireEncoding d SignedBlob_null) ;;
     assign (fun d => upd_defaultWireEncodingFormat d None) ;;
     current ← getChangeCount;
     assign (fun d => upd_getDefaultWireEncodingChangeCount d current)
   else mret tt) ;;
  attr _defaultWireEncoding.

Definition getDefaultWireEncodingFormat : M World (option WireFormat) :=
  attr _defaultWireEncodingFormat.

Definition _setDefaultWireEncoding
    (defaultWireEncoding : SignedBlob)
    (defaultWireEncodingFormat : option WireFormat) : M World unit :=
  assign (fun d => upd_defaultWireEncoding d defaultWireEncoding) ;;
  assign (fun d => upd_defaultWireEncodingFormat d defaultWireEncodingFormat) ;;
  current ← getChangeCount;
  assign (fun d => upd_getDefaultWireEncodingChangeCount d current).

Definition setName (name : NameArg) : M World unit :=
  assign (fun d => upd_name d
    (set (_name d)
       (match name with ArgName n => n | ArgOther _ => Name_new name end))) ;;
  assign (fun d => upd_changeCount d (_changeCount d + 1)).

Definition setMetaInfo (metaInfo : option MetaInfo) : M World unit :=
  assign (fun d => upd_metaInfo d
    (set (_metaInfo d)
       (match metaInfo with
        | None => MetaInfo_new None
        | Some _ => MetaInfo_new metaInfo
        end))) ;;
  assign (fun d => upd_changeCount d (_changeCount d + 1)).

Definition setContent (content : BlobArg) : M World unit :=
  assign (fun d => upd_content d
    (match content with ArgBlob b => b | ArgArray _ => Blob_new content end)) ;;
  assign (fun d => upd_changeCount d (_changeCount d + 1)).

(** wireFormat.encodeData(self): the call is counted whether it returns
    or raises; the codec reads the packet by value. *)
Definition call_encodeData (wireFormat : WireFormat)
  : M World (list byte * Z * Z) :=
  modify (fun w => {| self := self w;
                      codecCalls := codecCalls w ++ [EncodeData wireFormat] |}) ;;
  d ← gets self;
  lift (encodeData wireFormat (fields d)).

(** Modelled from the spec: wireFormat.decodeData(self, buffer). It
    "populates name/metaInfo/content as a side effect (each field
    assignment must go through the same setters so changeCount is
    consistent)" and returns the signed-range offsets. *)
Definition call_decodeData (wireFormat : WireFormat)
    (decodeBuffer : option (list byte)) : M World (Z * Z) :=
  modify (fun w => {| self := self w;
                      codecCalls := codecCalls w ++ [DecodeData wireFormat] |}) ;;
  '(fs, b, e) ← lift (decodeData wireFormat decodeBuffer);
  setName (ArgOther (f_name fs)) ;;
  setMetaInfo (Some {| mi_type := fst (f_metaInfo fs);
                       mi_freshnessPeriod := snd (f_metaInfo fs);
                       mi_changeCount := 0 |}) ;;
  setContent (ArgBlob (f_content fs)) ;;
  mret (b, e).

Definition wireEncode (wireFormat : WireFormat) : M World SignedBlob :=
  cached ← getDefaultWireEncoding;
  hit ← (if negb (sb_isNull cached)
         then format ← getDefaultWireEncodingFormat;
              mret (bool_decide (format = Some wireFormat))
         else mret false);
  if hit : bool then
    (* We already have an encoding in the desired format. *)
    getDefaultWireEncoding
  else
    '(encoding, signedPortionBeginOffset, signedPortionEndOffset) ←
      call_encodeData wireFormat;
    let wireEncoding :=
      SignedBlob_new (ArgArray encoding)
        signedPortionBeginOffset signedPortionEndOffset in
    (if bool_decide (wireFormat = getDefaultWireFormat)
     then _setDefaultWireEncoding wireEncoding (Some getDefaultWireFormat)
     else mret tt) ;;
    mret wireEncoding.

Definition wireDecode (input : BlobArg) (wireFormat : WireFormat)
  : M World unit :=
  let decodeBuffer :=
    match input with ArgBlob b => buf b | ArgArray a => Some a end in
  '(signedPortionBeginOffset, signedPortionEndOffset) ←
    call_decodeData wireFormat decodeBuffer;
  if bool_decide (wireFormat = getDefaultWireFormat)
  then _setDefaultWireEncoding
         (SignedBlob_new (ArgBlob (Blob_new input))
            signedPortionBeginOffset signedPortionEndOffset)
         (Some getDefaultWireFormat)
  else _setDefaultWireEncoding SignedBlob_null None.

(** *** What a caller can do besides calling methods

    getName() and getMetaInfo() hand out the wrapped objects themselves,
    so a caller can change them in place; each such change advances the
    object's own counter by [k] > 0 and leaves the tracker's baseline. *)
Definition mutateName (f : list Component -> list Component) (k : positive)
  : M World unit :=
  assign (fun d => upd_name d
    {| cc_target :=
         {| components := f (components (cc_target (_name d)));
            name_changeCount :=
              name_changeCount (cc_target (_name d)) + Z.pos k |};
       cc_baseline := cc_baseline (_name d) |}).

Definition mutateMetaInfo (f : Z * option Z -> Z * option Z) (k : positive)
  : M World unit :=
  assign (fun d => upd_metaInfo d
    {| cc_target :=
         {| mi_type := fst (f (mi_fields (cc_target (_metaInfo d))));
            mi_freshnessPeriod :=
              snd (f (mi_fields (cc_target (_metaInfo d))));
            mi_changeCount :=
              mi_changeCount (cc_target (_metaInfo d)) + Z.pos k |};
       cc_baseline := cc_baseline (_metaInfo d) |}).

(** *** Runs of a packet

    Everything a caller can do with a packet, one step at a time. *)
Inductive Op : Type :=
| CallSetName (name : NameArg)
| CallSetMetaInfo (metaInfo : option MetaInfo)
| CallSetContent (content : BlobArg)
| CallGetName
| CallGetMetaInfo
| CallGetContent
| CallGetChangeCount
| CallGetDefaultWireEncoding
| CallGetDefaultWireEncodingFormat
| CallWireEncode (wireFormat : WireFormat)
| CallWireDecode (input : BlobArg) (wireFormat : WireFormat)
| MutateName (f : list Component -> list Component) (k : positive)
| MutateMetaInfo (f : Z * option Z -> Z * option Z) (k : positive).

(** The state a step leaves, whether the call returns or raises. *)
Definition perform (o : Op) (w : World) : World :=
  match o with
  | CallSetName name => exec (setName name) w
  | CallSetMetaInfo metaInfo => exec (setMetaInfo metaInfo) w
  | CallSetContent content => exec (setContent content) w
  | CallGetName => exec getName w
  | CallGetMetaInfo => exec getMetaInfo w
  | CallGetContent => exec getContent w
  | CallGetChangeCount => exec getChangeCount w
  | CallGetDefaultWireEncoding => exec getDefaultWireEncoding w
  | CallGetDefaultWireEncodingFormat => exec getDefaultWireEncodingFormat w
  | CallWireEncode wireFormat => exec (wireEncode wireFormat) w
  | CallWireDecode input wireFormat => exec (wireDecode input wireFormat) w
  | MutateName f k => exec (mutateName f k) w
  | MutateMetaInfo f k => exec (mutateMetaInfo f k) w
  end.

Definition run (ops : list Op) (w : World) : World :=
  fold_left (fun w o => perform o w) ops w.

(** The steps that change what the packet holds. *)
Definition isMutation (o : Op) : bool :=
  match o with
  | CallSetName _ | CallSetMetaInfo _ | CallSetContent _
  | CallWireDecode _ _ | MutateName _ _ | MutateMetaInfo _ _ => true
  | _ => false
  end.

(** A packet as a program can hold it: constructed by Data(name), then
    used. *)
Inductive reachable : World -> Prop :=
| reachable_init (name : NameArg) (calls : list (CodecCall WireFormat)) :
    reachable {| self := __init__ name; codecCalls := calls |}
| reachable_step (w : World) (o : Op) :
    reachable w -> reachable (perform o w).

(** The three setters. *)
Inductive Setter : Type :=
| SetName (name : NameArg)
| SetMetaInfo (metaInfo : option MetaInfo)
| SetContent (content : BlobArg).

Definition callSetter (s : Setter) : M World unit :=
  match s with
  | SetName name => setName name
  | SetMetaInfo metaInfo => setMetaInfo metaInfo
  | SetContent content => setContent content
  end.

(** What a caller sees of the default cache: getDefaultWireEncoding(),
    then getDefaultWireEncodingFormat(). *)
Definition observeDefault (w : World) : Res SignedBlob * Res (option WireFormat) :=
  let (encoding, w') := getDefaultWireEncoding w in
  (encoding, fst (getDefaultWireEncodingFormat w')).

(** The default-format encoding is cached: getDefaultWireEncoding() is not
    null and its format is the default one. *)
Definition defaultEncodingCached (w : World) : bool :=
  match observeDefault w with
  | (Ok encoding, Ok format) =>
      negb (sb_isNull encoding) && bool_decide (format = Some getDefaultWireFormat)
  | _ => false
  end.

(** No change of name or metaInfo is waiting to be noticed. *)
Definition settled (d : Data) : bool :=
  negb (pending (_name d)) && negb (pending (_metaInfo d)).

(** The cache's recorded count is the packet's count and nothing is
    waiting: the state in which getDefaultWireEncoding() keeps the cache. *)
Definition synced (d : Data) : bool :=
  settled d
  && bool_decide (_getDefaultWireEncodingChangeCount d = _changeCount d).

(** The packet after getChangeCount(), after getDefaultWireEncoding(), and
    after _setDefaultWireEncoding(e, f). *)
Definition settle (d : Data) : Data :=
  self (exec getChangeCount {| self := d; codecCalls := [] |}).
Definition refresh (d : Data) : Data :=
  self (exec getDefaultWireEncoding {| self := d; codecCalls := [] |}).
Definition cacheStore (e : SignedBlob) (f : option WireFormat) (d : Data)
  : Data :=
  self (exec (_setDefaultWireEncoding e f) {| self := d; codecCalls := [] |}).

(** The buffer wireDecode hands to the codec. *)
Definition decodeBuffer (input : BlobArg) : option (list byte) :=
  match input with ArgBlob b => buf b | ArgArray a => Some a end.

(** The packet after getDefaultWireEncoding() found its cache stale. *)
Definition invalidated (d : Data) : Data :=
  upd_getDefaultWireEncodingChangeCount
    (upd_defaultWireEncodingFormat
       (upd_defaultWireEncoding (settle d) SignedBlob_null) None)
    (_changeCount (settle d)).

(** The packet after a setter. *)
Definition applied (s : Setter) (d : Data) : Data :=
  self (exec (callSetter s) {| self := d; codecCalls := [] |}).

(** What a successful decodeData leaves in the packet. *)
Definition populate (fs : Fields) (d : Data) : Data :=
  applied (SetContent (ArgBlob (f_content fs)))
    (applied (SetMetaInfo (Some {| mi_type := fst (f_metaInfo fs);
                                   mi_freshnessPeriod := snd (f_metaInfo fs);
                                   mi_changeCount := 0 |}))
       (applied (SetName (ArgOther (f_name fs))) d)).

(** The cache entry wireDecode stores. *)
Definition decodedEntry (input : BlobArg) (wf : WireFormat) (b e : Z)
  : SignedBlob * option WireFormat :=
  if bool_decide (wf = getDefaultWireFormat)
  then (SignedBlob_new (ArgBlob (Blob_new input)) b e, Some getDefaultWireFormat)
  else (SignedBlob_null, None).

(** The cached bytes stand for what the packet holds: they are what the
    default encoder gives for it, or the default decoder reads it from
    them. *)
Definition cacheFaithful (d : Data) : Prop :=
  (exists bs b e,
      encodeData getDefaultWireFormat (fields d) = Ok (bs, b, e)
      /\ _defaultWireEncoding d = SignedBlob_new (ArgArray bs) b e)
  \/ (exists b e,
      decodeData getDefaultWireFormat (buf (sb_blob (_defaultWireEncoding d)))
      = Ok (fields d, b, e)).

(** What holds of every packet a program can hold. *)
Record Inv (d : Data) : Prop := {
  inv_count : _getDefaultWireEncodingChangeCount d <= _changeCount d;
  inv_format :
    _defaultWireEncodingFormat d = None
    \/ _defaultWireEncodingFormat d = Some getDefaultWireFormat;
  inv_baseline :
    sb_isNull (_defaultWireEncoding d) = false ->
    _getDefaultWireEncodingChangeCount d = _changeCount d ->
    cc_baseline (_name d) <= targetChangeCount (cc_target (_name d))
    /\ cc_baseline (_metaInfo d) <= targetChangeCount (cc_target (_metaInfo d));
  inv_faithful :
    synced d = true -> sb_isNull (_defaultWireEncoding d) = false ->
    _defaultWireEncodingFormat d = Some getDefaultWireFormat /\ cacheFaithful d
}.

(** The packet holds [sb] as a valid default-format encoding. *)
Definition holds (sb : SignedBlob) (d : Data) : Prop :=
  synced d = true
  /\ _defaultWireEncoding d = sb
  /\ sb_isNull sb = false
  /\ _defaultWireEncodingFormat d = Some getDefaultWireFormat.

(** *** More vocabulary for runs *)

(** The changes made in place, through the object getName() or
    getMetaInfo() handed out. *)
Definition isInPlace (o : Op) : bool :=
  match o with MutateName _ _ | MutateMetaInfo _ _ => true | _ => false end.

(** The steps that always change the packet: the setters and the changes
    in place (wireDecode changes it only when the codec returns). *)
Definition isChange (o : Op) : bool :=
  match o with
  | CallSetName _ | CallSetMetaInfo _ | CallSetContent _
  | MutateName _ _ | MutateMetaInfo _ _ => true
  | _ => false
  end.

Definition isDecode (o : Op) : bool :=
  match o with CallWireDecode _ _ => true | _ => false end.

(** The steps that can reach the codec. *)
Definition isCodecStep (o : Op) : bool :=
  match o with CallWireEncode _ | CallWireDecode _ _ => true | _ => false end.

(** What calling the codec directly on the packet gives, as a SignedBlob. *)
Definition encodeDirect (wf : WireFormat) (d : Data) : Res SignedBlob :=
  match encodeData wf (fields d) with
  | Ok (bs, b, e) => Ok (SignedBlob_new (ArgArray bs) b e)
  | Raise x => Raise x
  end.

(** A valid cached encoding is what the default encoder gives for the
    packet. *)
Definition encoderMade (d : Data) : Prop :=
  synced d = true -> sb_isNull (_defaultWireEncoding d) = false ->
  encodeDirect getDefaultWireFormat d = Ok (_defaultWireEncoding d).

(** The trackers' baselines and their targets' own counts. *)
Definition nameBaseline (d : Data) : Z := cc_baseline (_name d).
Definition nameCount (d : Data) : Z := name_changeCount (cc_target (_name d)).
Definition metaBaseline (d : Data) : Z := cc_baseline (_metaInfo d).
Definition metaCount (d : Data) : Z := mi_changeCount (cc_target (_metaInfo d)).

(** Relative to a count [c] that getChangeCount has returned: the packet's
    count has passed [c], or it is [c] and no tracker is ahead of its
    target; and the same with a change still waiting to be noticed. *)
Definition current (c : Z) (d : Data) : Prop :=
  c < _changeCount d
  \/ (_changeCount d = c
      /\ nameBaseline d <= nameCount d /\ metaBaseline d <= metaCount d).

Definition owing (c : Z) (d : Data) : Prop :=
  c < _changeCount d
  \/ (_changeCount d = c
      /\ nameBaseline d <= nameCount d /\ metaBaseline d <= metaCount d
      /\ (nameBaseline d < nameCount d \/ metaBaseline d < metaCount d)).

End Data.
End data.
Import data.


(* ===================================================================== *)
(** ** pyndn.security.identity.identity_storage: the IdentityStorage class *)
(* ===================================================================== *)

Module identity_storage.

(** The names identity_storage.py binds at module level: its three imports
    ([import math], [from pyndn.util.common import Common], [from
    pyndn.security.security_exception import SecurityException]) and the
    class it defines. *)
Definition module_globals : list string :=
  ["math"; "Common"; "SecurityException"; "IdentityStorage"].

Section IdentityStorage.
(** [Store] is whatever a backend keeps; [IdentityCertificate] is the
    certificate class (a Data), which the base class only passes around. *)
Context {Store IdentityCertificate : Type}.

(** The methods the base class leaves to a subclass: an object's method
    table, which [self.method(...)] goes through. *)
Record IdentityStorage : Type := {
  doesIdentityExist : Name -> M Store bool;
  addIdentity : Name -> M Store unit;
  revokeIdentity : M Store bool;
  doesKeyExist : Name -> M Store bool;
  addKey : Name -> Z -> Blob -> M Store unit;
  getKey : Name -> M Store Blob;
  activateKey : Name -> M Store unit;
  deactivateKey : Name -> M Store unit;
  doesCertificateExist : Name -> M Store bool;
  addCertificate : IdentityCertificate -> M Store unit;
  getCertificate : Name -> bool -> M Store (option IdentityCertificate);
  getDefaultIdentity : M Store Name;
  getDefaultKeyNameForIdentity : Name -> M Store Name;
  getDefaultCertificateNameForKey : Name -> M Store Name;
  setDefaultIdentity : Name -> M Store unit;
  setDefaultKeyNameForIdentity : Name -> option Name -> M Store unit;
  setDefaultCertificateNameForKey : Name -> Name -> M Store unit
}.

(** The base class itself: every one of them raises. *)
Definition IdentityStorage_base : IdentityStorage := {|
  doesIdentityExist := fun identityName =>
    raise (RuntimeError "doesIdentityExist is not implemented");
  addIdentity := fun identityName =>
    raise (RuntimeError "doesIdentityExist is not implemented");
  revokeIdentity :=
    raise (RuntimeError "doesIdentityExist is not implemented");
  doesKeyExist := fun keyName =>
    raise (RuntimeError "doesKeyExist is not implemented");
  addKey := fun keyName keyType publicKeyDer =>
    raise (RuntimeError "addKey is not implemented");
  getKey := fun keyName =>
    raise (RuntimeError "getKey is not implemented");
  activateKey := fun keyName =>
    raise (RuntimeError "activateKey is not implemented");
  deactivateKey := fun keyName =>
    raise (RuntimeError "deactivateKey is not implemented");
  doesCertificateExist := fun certificateName =>
    raise (RuntimeError "doesCertificateExist is not implemented");
  addCertificate := fun certificate =>
    raise (RuntimeError "addCertificate is not implemented");
  getCertificate := fun certificateName allowAny =>
    raise (RuntimeError "getCertificate is not implemented");
  getDefaultIdentity :=
    raise (RuntimeError "getDefaultIdentity is not implemented");
  getDefaultKeyNameForIdentity := fun identityName =>
    raise (RuntimeError "getDefaultKeyNameForIdentity is not implemented");
  getDefaultCertificateNameForKey := fun keyName =>
    raise (RuntimeError "getDefaultCertificateNameForKey is not implemented");
  setDefaultIdentity := fun identityName =>
    raise (RuntimeError "setDefaultIdentity is not implemented");
  setDefaultKeyNameForIdentity := fun keyName identityNameCheck =>
    raise (RuntimeError "setDefaultKeyNameForIdentity is not implemented");
  setDefaultCertificateNameForKey := fun keyName certificateName =>
    raise (RuntimeError "setDefaultCertificateNameForKey is not implemented")
|}.

(** Modelled from the spec: Common.getNowMilliseconds (pyndn.util.common
    is not among the sources) gives the unix time in milliseconds; the
    reading is an argument, taken as an integer. Then
    [math.floor(ms / 1000.0)] is [ms `div` 1000], and
    [repr(...).replace(".0", "")] is its decimal numeral: repr of an int
    has no ".0", repr of an integral float ends in one. *)
Definition nowString (nowMilliseconds : Z) : string :=
  pretty (nowMilliseconds `div` 1000).

(** getNewKeyName, with the module's global names as a parameter: the
    body looks up [math], [Common], [Name] and, on the raising path,
    [SecurityException]. *)
Definition getNewKeyName_in (globals : list string)
    (self : IdentityStorage) (nowMilliseconds : Z)
    (identityName : Name) (useKsk : bool) : M Store Name :=
  load_global globals "math" ;;
  load_global globals "Common" ;;
  let nowString := nowString nowMilliseconds in
  let keyIdStr :=
    if useKsk then "KSK-" +:+ nowString else "DSK-" +:+ nowString in
  load_global globals "Name" ;;
  let keyName := append (Name_new (ArgName identityName)) keyIdStr in
  found ← doesKeyExist self keyName;
  if found : bool then
    load_global globals "SecurityException" ;;
    raise (SecurityException "Key name already exists")
  else mret keyName.

(** The method as identity_storage.py defines it. *)
Definition getNewKeyName := getNewKeyName_in module_globals.

(** The functions defined at module level in identity_storage.py, which
    a call through a bare name would reach: there are none, the module
    holds the class only. *)
Definition module_functions : list (string * (Name -> M Store Name)) := [].

Definition call_global (x : string) (arg : Name) : M Store Name :=
  match list_find (fun p => fst p = x) module_functions with
  | Some (_, (_, f)) => f arg
  | None => raise (NameError x)
  end.

Definition getDefaultCertificateNameForIdentity
    (self : IdentityStorage) (identityName : Name) : M Store Name :=
  keyName ← getDefaultKeyNameForIdentity self identityName;
  call_global "getDefaultCertificateNameForKey" keyName.

(** A method that raises RuntimeError("... is not implemented") and leaves
    the store as it is. *)
Definition raisesNotImplemented {A} (m : M Store A) : Prop :=
  forall s, exists method : string,
    m s = (Raise (RuntimeError (method +:+ " is not implemented")), s).

(** The key name the naming policy describes: the identity name and one
    more component, "KSK-" or "DSK-" and the seconds. *)
Definition keyNameFor (nowMilliseconds : Z) (identityName : Name)
    (useKsk : bool) : Name :=
  {| components :=
       components identityName
         ++ [(if useKsk then "KSK-" else "DSK-")
               +:+ pretty (nowMilliseconds `div` 1000)];
     name_changeCount := 1 |}.

End IdentityStorage.
Arguments IdentityStorage : clear implicits.

End identity_storage.
Import identity_storage.

(* ===================================================================== *)
(** ** Concrete instances for the examples *)
(* ===================================================================== *)

Module fixtures.

(** A ChangeCounter that takes the target's count as its baseline when it
    is built and when its target is replaced. *)
Definition observing : Baselines :=
  {| baseline_new := fun count => count;
     baseline_set := fun _ count => count |}.

(** A small codec. The name goes out as its components, each after a
    slash, then a zero byte, then the content; a packet without content
    cannot be encoded, and the metadata is not carried. *)
Definition toy_encode (fs : Fields) : Res (list byte * Z * Z) :=
  match f_content fs with
  | Some content =>
      let out :=
        flat_map (fun c => x2f :: String.list_byte_of_string c) (f_name fs)
          ++ x00 :: content in
      Ok (out, 0, Z.of_nat (length out))
  | None => Raise (WireFormatError "no content")
  end.

(** Read components up to the zero byte; [cur] is the component being
    read, if one was opened. *)
Fixpoint toy_parse (cur : option (list byte)) (l : list byte)
  : option (list Component * list byte) :=
  let close :=
    match cur with
    | Some c => [String.string_of_list_byte c]
    | None => []
    end in
  match l with
  | [] => None
  | b :: l' =>
      if Byte.eqb b x00 then Some (close, l')
      else if Byte.eqb b x2f then
        match toy_parse (Some []) l' with
        | Some (cs, rest) => Some (close ++ cs, rest)
        | None => None
        end
      else
        match cur with
        | Some c => toy_parse (Some (c ++ [b])) l'
        | None => None
        end
  end.

Definition toy_decode (buffer : option (list byte)) : Res (Fields * Z * Z) :=
  match buffer with
  | None => Raise (WireFormatError "no buffer")
  | Some l =>
      match toy_parse None l with
      | Some (cs, content) =>
          Ok ({| f_name := cs; f_metaInfo := (0, None);
                 f_content := Some content |}, 0, Z.of_nat (length l))
      | None => Raise (WireFormatError "truncated")
      end
  end.

(** Two formats that share the codec: 0 is the default, anything else is
    not. *)
Definition toy : WireFormats nat :=
  {| getDefaultWireFormat := 0%nat;
     encodeData := fun _ => toy_encode;
     decodeData := fun _ => toy_decode |}.

#[local] Existing Instance toy.
#[local] Existing Instance observing.

Definition hello : list byte := [x68; x65; x6c; x6c; x6f].

(** Data(Name("/a/b")) with no codec call made yet. *)
Definition fresh : World nat :=
  {| self := __init__ (ArgOther ["a"; "b"]); codecCalls := [] |}.

(** A backend that keeps key names and the two default tables and leaves
    the rest of the base class as it is. *)
Record MemoryStore : Type := {
  keys : gset (list Component);
  defaultKey : gmap (list Component) (list Component);
  defaultCertificate : gmap (list Component) (list Component)
}.

Definition memory : IdentityStorage MemoryStore unit :=
  let base := @IdentityStorage_base MemoryStore unit in
  {| doesIdentityExist := doesIdentityExist base;
     addIdentity := addIdentity base;
     revokeIdentity := revokeIdentity base;
     doesKeyExist := fun keyName =>
       gets (fun s => bool_decide (components keyName ∈ keys s));
     addKey := addKey base;
     getKey := getKey base;
     activateKey := activateKey base;
     deactivateKey := deactivateKey base;
     doesCertificateExist := doesCertificateExist base;
     addCertificate := addCertificate base;
     getCertificate := getCertificate base;
     getDefaultIdentity := getDefaultIdentity base;
     getDefaultKeyNameForIdentity := fun identityName =>
       gets (fun s =>
         Name_new (ArgOther (default [] (defaultKey s !! components identityName))));
     getDefaultCertificateNameForKey := fun keyName =>
       gets (fun s =>
         Name_new (ArgOther (default [] (defaultCertificate s !! components keyName))));
     setDefaultIdentity := setDefaultIdentity base;
     setDefaultKeyNameForIdentity := setDefaultKeyNameForIdentity base;
     setDefaultCertificateNameForKey := setDefaultCertificateNameForKey base |}.

Definition alice : Name := Name_new (ArgOther ["alice"]).

(** A store where /alice has the default key /alice/KSK-1 and that key the
    default certificate /alice/KSK-1/ID-CERT/0. *)
Definition store : MemoryStore :=
  {| keys := {[ ["alice"; "KSK-1"] ]};
     defaultKey := {[ ["alice"] := ["alice"; "KSK-1"] ]};
     defaultCertificate :=
       {[ ["alice"; "KSK-1"] := ["alice"; "KSK-1"; "ID-CERT"; "0"] ]} |}.

(** The packet with content "hello", before and after its first
    wireEncode with the default format. *)
Definition written : World nat := exec (setContent (ArgArray hello)) fresh.

Definition encoded : World nat := exec (wireEncode 0%nat) written.

Definition helloBlob : SignedBlob :=
  {| sb_blob := Some [x2f; x61; x2f; x62; x00; x68; x65; x6c; x6c; x6f];
     signedPortionBeginOffset := 0; signedPortionEndOffset := 10 |}.

(** The encoded packet after its content was set again: the cache is
    stale and not yet cleared. *)
Definition stale : World nat := exec (setContent (ArgArray [x21])) encoded.

(** Bytes the toy codec reads as the name /a with content "h". *)
Definition wire : list byte := [x2f; x61; x00; x68].

(** Steps used in the examples: append a component to the name in place,
    change the content type in place, set the content. *)
Definition appendC : @Op nat := MutateName (fun cs => cs ++ ["c"]) 1.
Definition retype : @Op nat := MutateMetaInfo (fun m => (1, snd m)) 2.
Definition setHello : @Op nat := CallSetContent (ArgArray hello).

End fixtures.

(* ===================================================================== *)
(** ** The Data class: facts *)
(* ===================================================================== *)

Module data_facts.
Section Facts.
Context {WireFormat : Type} `{WireFormats WireFormat} `{Baselines}.
#[local] Abbreviation Data := (Data WireFormat).
#[local] Abbreviation World := (World WireFormat).
#[local] Abbreviation W d l := (Build_World WireFormat d l).

Ltac unfold_M :=
  unfold mbind, M_bind, mret, M_ret, attr, assign, gets, modify, raise, lift,
    exec in *.

Lemma W_eta (w : World) : w = W (self w) (codecCalls w).
Proof. by destruct w. Qed.

(** checkChanged on a tracker. *)
Lemma checkChanged_twice {T} `{ChangeCounted T} (c : ChangeCounter T) :
  checkChanged (snd (checkChanged c)) = (false, snd (checkChanged c)).
Proof.
  unfold checkChanged at 2 3.
  destruct (bool_decide (cc_baseline c ≠ targetChangeCount (cc_target c))) eqn:Hc;
    unfold checkChanged; cbn.
  - rewrite bool_decide_eq_false_2; [done | tauto].
  - by rewrite Hc.
Qed.

Lemma checkChanged_clean {T} `{ChangeCounted T} (c : ChangeCounter T) :
  pending c = false -> checkChanged c = (false, c).
Proof.
  unfold pending, checkChanged. by case_bool_decide.
Qed.

Lemma pending_checked {T} `{ChangeCounted T} (c : ChangeCounter T) :
  pending (snd (checkChanged c)) = false.
Proof. unfold pending. by rewrite checkChanged_twice. Qed.

Lemma checkChanged_target {T} `{ChangeCounted T} (c : ChangeCounter T) :
  cc_target (snd (checkChanged c)) = cc_target c.
Proof. unfold checkChanged. by case_bool_decide. Qed.

Lemma pending_iff {T} `{ChangeCounted T} (c : ChangeCounter T) :
  pending c = false <-> cc_baseline c = targetChangeCount (cc_target c).
Proof.
  unfold pending, checkChanged. case_bool_decide as Hc; cbn; split; intros; try done.
Qed.

(** getChangeCount. *)
Lemma getChangeCount_run (d : Data) l :
  getChangeCount (W d l) = (Ok (_changeCount (settle d)), W (settle d) l).
Proof.
  unfold settle, getChangeCount, name_checkChanged, metaInfo_checkChanged.
  unfold_M. cbn.
  by destruct (fst (checkChanged (_metaInfo d)) || fst (checkChanged (_name d))).
Qed.

Lemma settle_unfold (d : Data) :
  settle d =
    upd_changeCount
      (upd_metaInfo (upd_name d (snd (checkChanged (_name d))))
         (snd (checkChanged (_metaInfo d))))
      (if pending (_metaInfo d) || pending (_name d)
       then _changeCount d + 1 else _changeCount d).
Proof.
  unfold settle, getChangeCount, name_checkChanged, metaInfo_checkChanged, pending.
  unfold_M. cbn.
  by destruct (fst (checkChanged (_metaInfo d)) || fst (checkChanged (_name d))).
Qed.

Lemma settle_settled (d : Data) : settled (settle d) = true.
Proof.
  rewrite settle_unfold. unfold settled. cbn.
  by rewrite !pending_checked.
Qed.

Lemma settle_id (d : Data) : settled d = true -> settle d = d.
Proof.
  unfold settled. intros [Hn Hm]%andb_true_iff.
  apply negb_true_iff in Hn, Hm.
  rewrite settle_unfold, Hn, Hm. cbn.
  rewrite (checkChanged_clean _ Hn), (checkChanged_clean _ Hm).
  by destruct d.
Qed.

Lemma settle_idem (d : Data) : settle (settle d) = settle d.
Proof. apply settle_id, settle_settled. Qed.

Lemma settle_fields (d : Data) : fields (settle d) = fields d.
Proof.
  rewrite settle_unfold. unfold fields, get. cbn.
  by rewrite !checkChanged_target.
Qed.

Lemma settle_count (d : Data) :
  _changeCount (settle d) =
    if pending (_metaInfo d) || pending (_name d)
    then _changeCount d + 1 else _changeCount d.
Proof. by rewrite settle_unfold. Qed.

Lemma settle_count_bounds (d : Data) :
  _changeCount d <= _changeCount (settle d) <= _changeCount d + 1.
Proof. rewrite settle_count. destruct (_ || _); lia. Qed.

Lemma settle_count_settled (d : Data) :
  settled d = false -> _changeCount (settle d) = _changeCount d + 1.
Proof.
  rewrite settle_count. unfold settled.
  destruct (pending (_name d)), (pending (_metaInfo d)); cbn; done.
Qed.

Lemma settle_cache (d : Data) :
  _defaultWireEncoding (settle d) = _defaultWireEncoding d
  /\ _defaultWireEncodingFormat (settle d) = _defaultWireEncodingFormat d
  /\ _getDefaultWireEncodingChangeCount (settle d)
     = _getDefaultWireEncodingChangeCount d
  /\ _content (settle d) = _content d.
Proof. by rewrite settle_unfold. Qed.


#[local] Arguments getChangeCount : simpl never.

Lemma settled_upd_cache (d : Data) e f g :
  settled (upd_getDefaultWireEncodingChangeCount
    (upd_defaultWireEncodingFormat (upd_defaultWireEncoding d e) f) g)
  = settled d.
Proof. done. Qed.

Lemma refresh_unfold (d : Data) :
  refresh d =
    if bool_decide (_getDefaultWireEncodingChangeCount d ≠ _changeCount (settle d))
    then invalidated d else settle d.
Proof.
  unfold refresh, getDefaultWireEncoding. unfold_M. cbn.
  rewrite getChangeCount_run. cbn.
  case_bool_decide; cbn; [|done].
  rewrite getChangeCount_run. cbn.
  rewrite settle_id; [done|].
  change (settled (settle d) = true). apply settle_settled.
Qed.

Lemma getDefaultWireEncoding_run (d : Data) l :
  getDefaultWireEncoding (W d l)
  = (Ok (_defaultWireEncoding (refresh d)), W (refresh d) l).
Proof.
  rewrite refresh_unfold.
  unfold getDefaultWireEncoding. unfold_M. cbn.
  rewrite getChangeCount_run. cbn.
  case_bool_decide; cbn; [|done].
  rewrite getChangeCount_run. cbn.
  rewrite settle_id; [done|].
  change (settled (settle d) = true). apply settle_settled.
Qed.

Lemma synced_iff (d : Data) :
  synced d = true <->
  settled d = true /\ _getDefaultWireEncodingChangeCount d = _changeCount d.
Proof.
  unfold synced. rewrite andb_true_iff, bool_decide_eq_true. tauto.
Qed.

Lemma refresh_synced (d : Data) : synced (refresh d) = true.
Proof.
  rewrite refresh_unfold. apply synced_iff.
  case_bool_decide as Hc.
  - split; [apply settle_settled | done].
  - split; [apply settle_settled |].
    destruct (settle_cache d) as (_ & _ & -> & _).
    destruct (decide (_getDefaultWireEncodingChangeCount d = _changeCount (settle d)));
      tauto.
Qed.

Lemma refresh_id (d : Data) : synced d = true -> refresh d = d.
Proof.
  intros [Hs Hg]%synced_iff. rewrite refresh_unfold, (settle_id _ Hs).
  by rewrite bool_decide_eq_false_2 by tauto.
Qed.

Lemma refresh_fields (d : Data) : fields (refresh d) = fields d.
Proof.
  rewrite refresh_unfold. case_bool_decide; [|apply settle_fields].
  rewrite <- (settle_fields d). done.
Qed.

Lemma refresh_count (d : Data) :
  _changeCount (refresh d) = _changeCount (settle d).
Proof. rewrite refresh_unfold. by case_bool_decide. Qed.

(** _setDefaultWireEncoding. *)
Lemma cacheStore_unfold e f (d : Data) :
  cacheStore e f d =
    upd_getDefaultWireEncodingChangeCount
      (upd_defaultWireEncodingFormat (upd_defaultWireEncoding (settle d) e) f)
      (_changeCount (settle d)).
Proof.
  unfold cacheStore, _setDefaultWireEncoding. unfold_M. cbn.
  rewrite getChangeCount_run. cbn.
  by rewrite !settle_unfold.
Qed.

Lemma _setDefaultWireEncoding_run e f (d : Data) l :
  _setDefaultWireEncoding e f (W d l) = (Ok tt, W (cacheStore e f d) l).
Proof.
  rewrite cacheStore_unfold.
  unfold _setDefaultWireEncoding. unfold_M. cbn.
  rewrite getChangeCount_run. cbn.
  by rewrite !settle_unfold.
Qed.

Lemma cacheStore_synced e f (d : Data) : synced (cacheStore e f d) = true.
Proof.
  rewrite cacheStore_unfold. apply synced_iff. split; [|done].
  apply settle_settled.
Qed.

Lemma cacheStore_cache e f (d : Data) :
  _defaultWireEncoding (cacheStore e f d) = e
  /\ _defaultWireEncodingFormat (cacheStore e f d) = f.
Proof. by rewrite cacheStore_unfold. Qed.

Lemma cacheStore_fields e f (d : Data) : fields (cacheStore e f d) = fields d.
Proof. rewrite cacheStore_unfold, <- (settle_fields d). done. Qed.

Lemma cacheStore_count e f (d : Data) :
  _changeCount (cacheStore e f d) = _changeCount (settle d).
Proof. by rewrite cacheStore_unfold. Qed.


#[local] Arguments getDefaultWireEncoding : simpl never.
#[local] Arguments _setDefaultWireEncoding : simpl never.

Lemma callSetter_run s (d : Data) l :
  callSetter s (W d l) = (Ok tt, W (applied s d) l).
Proof. by destruct s. Qed.

Lemma exec_callSetter s (d : Data) l :
  exec (callSetter s) (W d l) = W (applied s d) l.
Proof. by destruct s. Qed.

Lemma applied_count s (d : Data) :
  _changeCount (applied s d) = _changeCount d + 1.
Proof. by destruct s. Qed.

Lemma applied_cache s (d : Data) :
  _defaultWireEncoding (applied s d) = _defaultWireEncoding d
  /\ _defaultWireEncodingFormat (applied s d) = _defaultWireEncodingFormat d
  /\ _getDefaultWireEncodingChangeCount (applied s d)
     = _getDefaultWireEncodingChangeCount d.
Proof. by destruct s. Qed.

Lemma populate_fields fs (d : Data) : fields (populate fs d) = fs.
Proof. destruct fs as [n [t p] c]. done. Qed.

Lemma populate_count fs (d : Data) :
  _changeCount (populate fs d) = _changeCount d + 3.
Proof. unfold populate. rewrite !applied_count. lia. Qed.

Lemma populate_cache fs (d : Data) :
  _defaultWireEncoding (populate fs d) = _defaultWireEncoding d
  /\ _defaultWireEncodingFormat (populate fs d) = _defaultWireEncodingFormat d
  /\ _getDefaultWireEncodingChangeCount (populate fs d)
     = _getDefaultWireEncodingChangeCount d.
Proof. done. Qed.

Lemma call_decodeData_run wf buffer (d : Data) l :
  call_decodeData wf buffer (W d l) =
    match decodeData wf buffer with
    | Ok (fs, b, e) => (Ok (b, e), W (populate fs d) (l ++ [DecodeData wf]))
    | Raise x => (Raise x, W d (l ++ [DecodeData wf]))
    end.
Proof.
  unfold call_decodeData. unfold_M. cbn.
  by destruct (decodeData wf buffer) as [[[fs b] e]|x].
Qed.

Lemma call_encodeData_run wf (d : Data) l :
  call_encodeData wf (W d l) =
    (encodeData wf (fields d), W d (l ++ [EncodeData wf])).
Proof. done. Qed.

#[local] Arguments call_encodeData : simpl never.
#[local] Arguments call_decodeData : simpl never.

Lemma wireDecode_run input wf (d : Data) l :
  wireDecode input wf (W d l) =
    match decodeData wf (decodeBuffer input) with
    | Ok (fs, b, e) =>
        (Ok tt,
         W (cacheStore (fst (decodedEntry input wf b e))
              (snd (decodedEntry input wf b e)) (populate fs d))
           (l ++ [DecodeData wf]))
    | Raise x => (Raise x, W d (l ++ [DecodeData wf]))
    end.
Proof.
  unfold wireDecode, decodedEntry. unfold_M.
  change (match input with ArgBlob b => buf b | ArgArray a => Some a end)
    with (decodeBuffer input).
  rewrite call_decodeData_run.
  destruct (decodeData wf (decodeBuffer input)) as [[[fs b] e]|x]; [|done].
  case_bool_decide; cbn; by rewrite _setDefaultWireEncoding_run.
Qed.

Lemma wireEncode_run wf (d : Data) l :
  wireEncode wf (W d l) =
    if negb (sb_isNull (_defaultWireEncoding (refresh d)))
       && bool_decide (_defaultWireEncodingFormat (refresh d) = Some wf)
    then (Ok (_defaultWireEncoding (refresh d)), W (refresh d) l)
    else
      match encodeData wf (fields d) with
      | Ok (bs, b, e) =>
          (Ok (SignedBlob_new (ArgArray bs) b e),
           W (if bool_decide (wf = getDefaultWireFormat)
              then cacheStore (SignedBlob_new (ArgArray bs) b e)
                     (Some getDefaultWireFormat) (refresh d)
              else refresh d)
             (l ++ [EncodeData wf]))
      | Raise x => (Raise x, W (refresh d) (l ++ [EncodeData wf]))
      end.
Proof.
  unfold wireEncode. unfold_M.
  rewrite getDefaultWireEncoding_run.
  destruct (sb_isNull (_defaultWireEncoding (refresh d))) eqn:Hnull; cbn.
  - rewrite call_encodeData_run, refresh_fields.
    destruct (encodeData wf (fields d)) as [[[bs b] e]|x]; [|done].
    case_bool_decide; [|done].
    by rewrite _setDefaultWireEncoding_run.
  - case_bool_decide as Hf; cbn.
    + rewrite getDefaultWireEncoding_run.
      by rewrite (refresh_id _ (refresh_synced d)).
    + rewrite call_encodeData_run, refresh_fields.
      destruct (encodeData wf (fields d)) as [[[bs b] e]|x]; [|done].
      case_bool_decide; [|done].
      by rewrite _setDefaultWireEncoding_run.
Qed.

#[local] Arguments wireEncode : simpl never.
#[local] Arguments wireDecode : simpl never.


(** *** The invariant of a packet *)

Lemma settled_iff (d : Data) :
  settled d = true <->
  cc_baseline (_name d) = targetChangeCount (cc_target (_name d))
  /\ cc_baseline (_metaInfo d) = targetChangeCount (cc_target (_metaInfo d)).
Proof.
  unfold settled. rewrite andb_true_iff, !negb_true_iff, !pending_iff. tauto.
Qed.

Lemma Inv_init (name : NameArg) : Inv (__init__ name).
Proof. split; cbn; try done; [by left]. Qed.

Lemma Inv_settle (d : Data) : Inv d -> Inv (settle d).
Proof.
  intros [Hc Hf Hb Hx].
  destruct (settle_cache d) as (He & Hfm & Hg & _).
  pose proof (settle_count_bounds d) as Hbd.
  pose proof (settle_settled d) as Hs.
  split.
  - rewrite Hg. lia.
  - by rewrite Hfm.
  - intros _ _. apply settled_iff in Hs as [-> ->]. lia.
  - intros [_ Hsync]%synced_iff Hnn.
    destruct (settled d) eqn:Hsd.
    + rewrite (settle_id _ Hsd) in *. apply Hx; [|done].
      apply synced_iff. done.
    + rewrite (settle_count_settled _ Hsd), Hg in Hsync. lia.
Qed.

Lemma Inv_refresh (d : Data) : Inv d -> Inv (refresh d).
Proof.
  intros HI. rewrite refresh_unfold. case_bool_decide; [|by apply Inv_settle].
  split; cbn; try done; [by left].
Qed.

Lemma Inv_cacheStore e f (d : Data) :
  Inv d ->
  (f = None \/ f = Some getDefaultWireFormat) ->
  (sb_isNull e = false ->
   f = Some getDefaultWireFormat
   /\ ((exists bs b o, encodeData getDefaultWireFormat (fields d) = Ok (bs, b, o)
                       /\ e = SignedBlob_new (ArgArray bs) b o)
       \/ (exists b o, decodeData getDefaultWireFormat (buf (sb_blob e))
                       = Ok (fields d, b, o)))) ->
  Inv (cacheStore e f d).
Proof.
  intros HI Hf He.
  pose proof (cacheStore_synced e f d) as [Hs Hg]%synced_iff.
  destruct (cacheStore_cache e f d) as [Hce Hcf].
  split.
  - lia.
  - by rewrite Hcf.
  - intros _ _. apply settled_iff in Hs as [-> ->]. lia.
  - rewrite Hce, Hcf. intros _ Hnn. destruct (He Hnn) as [-> Hfa].
    split; [done|]. unfold cacheFaithful. by rewrite Hce, cacheStore_fields.
Qed.

Lemma Inv_bump (d d' : Data) :
  Inv d ->
  _changeCount d < _changeCount d' ->
  _defaultWireEncodingFormat d' = _defaultWireEncodingFormat d ->
  _getDefaultWireEncodingChangeCount d' = _getDefaultWireEncodingChangeCount d ->
  Inv d'.
Proof.
  intros [Hc Hf Hb Hx] Hlt Hfm Hg. split.
  - lia.
  - by rewrite Hfm.
  - intros _ Heq. lia.
  - intros [_ Heq]%synced_iff. lia.
Qed.

Lemma Inv_applied s (d : Data) : Inv d -> Inv (applied s d).
Proof.
  intros HI. destruct (applied_cache s d) as (_ & Hf & Hg).
  apply (Inv_bump d); [done| |done..]. rewrite applied_count. lia.
Qed.

Lemma Inv_populate fs (d : Data) : Inv d -> Inv (populate fs d).
Proof. intros HI. unfold populate. by do 3 apply Inv_applied. Qed.

Lemma Inv_mutateName f k (d : Data) l :
  Inv d -> Inv (self (exec (mutateName f k) (W d l))).
Proof.
  intros [Hc Hf Hb Hx]. split; cbn; try done.
  - intros Hnn Hg. destruct (Hb Hnn Hg). unfold targetChangeCount, Name_counted in *.
    cbn. lia.
  - intros [[Hn _]%settled_iff Hg]%synced_iff Hnn. cbn in *.
    destruct (Hb Hnn Hg) as [Hle _].
    unfold targetChangeCount, Name_counted in *. cbn in *. lia.
Qed.

Lemma Inv_mutateMetaInfo f k (d : Data) l :
  Inv d -> Inv (self (exec (mutateMetaInfo f k) (W d l))).
Proof.
  intros [Hc Hf Hb Hx]. split; cbn; try done.
  - intros Hnn Hg. destruct (Hb Hnn Hg).
    unfold targetChangeCount, MetaInfo_counted in *. cbn. lia.
  - intros [[_ Hm]%settled_iff Hg]%synced_iff Hnn. cbn in *.
    destruct (Hb Hnn Hg) as [_ Hle].
    unfold targetChangeCount, MetaInfo_counted in *. cbn in *. lia.
Qed.

Lemma sb_isNull_array bs b e : sb_isNull (SignedBlob_new (ArgArray bs) b e) = false.
Proof. done. Qed.

Lemma Inv_wireEncode wf (d : Data) l :
  Inv d -> Inv (self (exec (wireEncode wf) (W d l))).
Proof.
  intros HI%Inv_refresh. unfold exec. rewrite wireEncode_run.
  destruct (negb _ && _); [done|].
  destruct (encodeData wf (fields d)) as [[[bs b] e]|x] eqn:Henc; [|done].
  cbn. case_bool_decide as Hwf; [|done].
  apply Inv_cacheStore; [done|by right|]. intros _. split; [done|].
  left. exists bs, b, e. by rewrite refresh_fields, <- Hwf.
Qed.

Lemma buf_Blob_new input : buf (Blob_new input) = decodeBuffer input.
Proof. by destruct input. Qed.

Lemma Inv_wireDecode input wf (d : Data) l :
  Inv d -> Inv (self (exec (wireDecode input wf) (W d l))).
Proof.
  intros HI. unfold exec. rewrite wireDecode_run.
  destruct (decodeData wf (decodeBuffer input)) as [[[fs b] e]|x] eqn:Hdec;
    [|done].
  cbn. unfold decodedEntry. case_bool_decide as Hwf; cbn.
  - apply Inv_cacheStore; [by apply Inv_populate|by right|].
    intros _. split; [done|]. right. exists b, e.
    change (sb_blob (SignedBlob_new (ArgBlob (Blob_new input)) b e))
      with (Blob_new input).
    by rewrite buf_Blob_new, populate_fields, <- Hwf.
  - apply Inv_cacheStore; [by apply Inv_populate|by left|done].
Qed.

Lemma Inv_perform o (w : World) : Inv (self w) -> Inv (self (perform o w)).
Proof.
  destruct w as [d l]. cbn. intros HI. destruct o; cbn.
  - by apply (Inv_applied (SetName _)).
  - by apply (Inv_applied (SetMetaInfo _)).
  - by apply (Inv_applied (SetContent _)).
  - done.
  - done.
  - done.
  - unfold exec. rewrite getChangeCount_run. by apply Inv_settle.
  - unfold exec. rewrite getDefaultWireEncoding_run. by apply Inv_refresh.
  - done.
  - by apply (Inv_wireEncode _ _ l).
  - by apply (Inv_wireDecode _ _ _ l).
  - by apply (Inv_mutateName _ _ _ l).
  - by apply (Inv_mutateMetaInfo _ _ _ l).
Qed.

Lemma reachable_Inv (w : World) : reachable w -> Inv (self w).
Proof.
  induction 1 as [name calls | w o _ IH].
  - apply Inv_init.
  - by apply Inv_perform.
Qed.


(** *** Steps that do not change the packet's count downwards *)

Lemma perform_run o (w : World) :
  perform o w = W (self (perform o w)) (codecCalls (perform o w)).
Proof. apply W_eta. Qed.

Lemma run_cons o ops (w : World) : run (o :: ops) w = run ops (perform o w).
Proof. done. Qed.

Lemma perform_count o (w : World) :
  _changeCount (self w) <= _changeCount (self (perform o w)).
Proof.
  destruct w as [d l]. pose proof (settle_count_bounds d) as Hs.
  destruct o; cbn [perform].
  - change (exec (setName name) (W d l)) with (exec (callSetter (SetName name)) (W d l)).
    rewrite exec_callSetter. cbn [self]. rewrite applied_count. lia.
  - change (exec (setMetaInfo metaInfo) (W d l)) with (exec (callSetter (SetMetaInfo metaInfo)) (W d l)).
    rewrite exec_callSetter. cbn [self]. rewrite applied_count. lia.
  - change (exec (setContent content) (W d l)) with (exec (callSetter (SetContent content)) (W d l)).
    rewrite exec_callSetter. cbn [self]. rewrite applied_count. lia.
  - done.
  - done.
  - done.
  - unfold exec. rewrite getChangeCount_run. cbn. lia.
  - unfold exec. rewrite getDefaultWireEncoding_run. cbn.
    rewrite refresh_count. lia.
  - done.
  - unfold exec. rewrite wireEncode_run.
    destruct (negb _ && _); cbn; [rewrite refresh_count; lia|].
    destruct (encodeData _ _) as [[[bs b] e]|x]; cbn; [|rewrite refresh_count; lia].
    case_bool_decide; [|rewrite refresh_count; lia].
    rewrite cacheStore_count.
    pose proof (settle_count_bounds (refresh d)). rewrite refresh_count in *. lia.
  - unfold exec. rewrite wireDecode_run.
    destruct (decodeData _ _) as [[[fs b] e]|x]; cbn; [|lia].
    rewrite cacheStore_count.
    pose proof (settle_count_bounds (populate fs d)).
    rewrite populate_count in *. lia.
  - done.
  - done.
Qed.

Lemma run_count ops (w : World) :
  _changeCount (self w) <= _changeCount (self (run ops w)).
Proof.
  revert w. induction ops as [|o ops IH]; intros w; [done|].
  rewrite run_cons. etrans; [apply (perform_count o)|apply IH].
Qed.

Lemma holds_perform sb o (d : Data) l :
  holds sb d -> isMutation o = false -> self (perform o (W d l)) = d.
Proof.
  intros (Hs & He & Hn & Hf) Hq. pose proof Hs as [Hst _]%synced_iff.
  destruct o; try done; cbn [perform].
  - unfold exec. rewrite getChangeCount_run. cbn. by apply settle_id.
  - unfold exec. rewrite getDefaultWireEncoding_run. cbn. by apply refresh_id.
  - unfold exec. rewrite wireEncode_run, (refresh_id _ Hs), He, Hn, Hf. cbn.
    case_bool_decide as Hwf; [done|].
    destruct (encodeData _ _) as [[[bs b] e]|x]; [|done].
    cbn. rewrite bool_decide_eq_false_2; [done|]. congruence.
Qed.

Lemma holds_run sb ops (d : Data) l :
  holds sb d -> forallb (fun o => negb (isMutation o)) ops = true ->
  self (run ops (W d l)) = d.
Proof.
  intros Hh. revert l. induction ops as [|o ops IH]; intros l Hq; [done|].
  cbn in Hq. apply andb_true_iff in Hq as [Ho%negb_true_iff Hq].
  rewrite run_cons, (perform_run o), (holds_perform sb o d l Hh Ho). by apply IH.
Qed.

Lemma wireEncode_default_holds (d : Data) l sb w1 :
  wireEncode getDefaultWireFormat (W d l) = (Ok sb, w1) -> holds sb (self w1).
Proof.
  rewrite wireEncode_run.
  destruct (sb_isNull (_defaultWireEncoding (refresh d))) eqn:Hn; cbn.
  - destruct (encodeData _ _) as [[[bs b] e]|x]; [|done].
    rewrite bool_decide_eq_true_2 by done. intros [= <- <-]. cbn.
    split; [apply cacheStore_synced|].
    by destruct (cacheStore_cache (SignedBlob_new (ArgArray bs) b e)
                   (Some getDefaultWireFormat) (refresh d)) as [-> ->].
  - case_bool_decide as Hf; cbn.
    + intros [= <- <-]. cbn. split; [apply refresh_synced|done].
    + destruct (encodeData _ _) as [[[bs b] e]|x]; [|done].
      rewrite bool_decide_eq_true_2 by done. intros [= <- <-]. cbn.
      split; [apply cacheStore_synced|].
      by destruct (cacheStore_cache (SignedBlob_new (ArgArray bs) b e)
                     (Some getDefaultWireFormat) (refresh d)) as [-> ->].
Qed.

Lemma holds_wireEncode sb (d : Data) l :
  holds sb d -> wireEncode getDefaultWireFormat (W d l) = (Ok sb, W d l).
Proof.
  intros (Hs & He & Hn & Hf).
  rewrite wireEncode_run, (refresh_id _ Hs), He, Hn, Hf. cbn.
  by rewrite bool_decide_eq_true_2.
Qed.

(** C1. Calling wireEncode with the default wire format twice, with no
    mutation of the packet in between (no setter, no wireDecode, no change
    of the name or the metaInfo in place; reads are allowed), returns the
    same SignedBlob both times, and the second call leaves the packet and
    the list of codec calls as they were: encodeData is not called. *)
Theorem wireEncode_default_twice (w w1 : World) (sb : SignedBlob) (ops : list Op) :
  wireEncode getDefaultWireFormat w = (Ok sb, w1) ->
  forallb (fun o => negb (isMutation o)) ops = true ->
  wireEncode getDefaultWireFormat (run ops w1) = (Ok sb, run ops w1)
  /\ codecCalls (exec (wireEncode getDefaultWireFormat) (run ops w1))
     = codecCalls (run ops w1).
Proof.
  destruct w as [d l]. intros Hh%wireEncode_default_holds Hq.
  destruct w1 as [d1 l1]. cbn in Hh.
  assert (wireEncode getDefaultWireFormat (run ops (W d1 l1))
          = (Ok sb, run ops (W d1 l1))) as Heq.
  { rewrite (W_eta (run ops (W d1 l1))), (holds_run sb ops d1 l1 Hh Hq).
    by apply holds_wireEncode. }
  split; [done|]. unfold exec. by rewrite Heq.
Qed.

Lemma encodeCount_snoc (l : list (CodecCall WireFormat)) wf :
  encodeCount (l ++ [EncodeData wf]) = S (encodeCount l).
Proof.
  unfold encodeCount. rewrite filter_app, length_app.
  rewrite filter_cons_True by done. rewrite filter_nil. cbn [length]. lia.
Qed.

Lemma stale_wireEncode (d : Data) l :
  _getDefaultWireEncodingChangeCount d < _changeCount d ->
  codecCalls (exec (wireEncode getDefaultWireFormat) (W d l))
  = l ++ [EncodeData getDefaultWireFormat].
Proof.
  intros Hlt. unfold exec. rewrite wireEncode_run, refresh_unfold.
  pose proof (settle_count_bounds d).
  rewrite (bool_decide_eq_true_2
             (_getDefaultWireEncodingChangeCount d ≠ _changeCount (settle d)))
    by lia.
  cbn. by destruct (encodeData _ _) as [[[bs b] e]|x].
Qed.

(** C2. On a packet whose default-format encoding is cached, after one
    call of setName, setMetaInfo or setContent (which calls no codec) the
    next wireEncode with the default format calls the codec exactly once
    more, and that call is encodeData of the default format; and one call
    of getChangeCount advances the packet's count by at most one, by
    exactly one when both trackers report a change. *)
Theorem setter_then_wireEncode_encodes_once (w : World) (s : Setter) :
  reachable w ->
  defaultEncodingCached w = true ->
  let w1 := exec (callSetter s) w in
  let w2 := exec (wireEncode getDefaultWireFormat) w1 in
  codecCalls w1 = codecCalls w
  /\ codecCalls w2 = codecCalls w1 ++ [EncodeData getDefaultWireFormat]
  /\ encodeCount (codecCalls w2) = S (encodeCount (codecCalls w1))
  /\ (forall v : World,
        fst (getChangeCount v) = Ok (_changeCount (self (exec getChangeCount v)))
        /\ _changeCount (self v) <= _changeCount (self (exec getChangeCount v))
           <= _changeCount (self v) + 1
        /\ (pending (_name (self v)) = true ->
            pending (_metaInfo (self v)) = true ->
            _changeCount (self (exec getChangeCount v))
            = _changeCount (self v) + 1)).
Proof.
  intros [Hc _ _ _]%reachable_Inv _. destruct w as [d l]. cbn in Hc. cbn zeta.
  rewrite !exec_callSetter. cbn [codecCalls].
  assert (codecCalls (exec (wireEncode getDefaultWireFormat) (W (applied s d) l))
          = l ++ [EncodeData getDefaultWireFormat]) as Hcalls.
  { apply stale_wireEncode. destruct (applied_cache s d) as (_ & _ & ->).
    rewrite applied_count. lia. }
  split; [done|]. split; [done|]. split; [by rewrite Hcalls, encodeCount_snoc|].
  intros [v lv]. unfold exec. rewrite getChangeCount_run. cbn.
  split; [done|]. split; [apply settle_count_bounds|].
  intros Hn Hm. by rewrite settle_count, Hn, Hm.
Qed.


Lemma observeDefault_run (d : Data) l :
  observeDefault (W d l)
  = (Ok (_defaultWireEncoding (refresh d)),
     Ok (_defaultWireEncodingFormat (refresh d))).
Proof. unfold observeDefault. by rewrite getDefaultWireEncoding_run. Qed.

(** C5, as amended. On a packet a program can hold, wireEncode with a
    format other than the default one calls that format's encodeData once
    and returns the SignedBlob built from what it returns (or raises what
    it raises); what getDefaultWireEncoding() and then
    getDefaultWireEncodingFormat() show is the same after the call as
    before it, and the format recorded after the call is never the
    non-default one. *)
Theorem wireEncode_other_format_keeps_default_cache
    (w : World) (wf : WireFormat) :
  reachable w ->
  wf ≠ getDefaultWireFormat ->
  let w1 := exec (wireEncode wf) w in
  fst (wireEncode wf w)
  = match encodeData wf (fields (self w)) with
    | Ok (bs, b, e) => Ok (SignedBlob_new (ArgArray bs) b e)
    | Raise x => Raise x
    end
  /\ codecCalls w1 = codecCalls w ++ [EncodeData wf]
  /\ observeDefault w1 = observeDefault w
  /\ fst (getDefaultWireEncodingFormat w1) ≠ Ok (Some wf).
Proof.
  intros HI%reachable_Inv Hwf. destruct w as [d l]. cbn in HI.
  cbn [self codecCalls]. cbn zeta.
  apply Inv_refresh in HI. destruct HI as [_ Hf _ _].
  assert (bool_decide (_defaultWireEncodingFormat (refresh d) = Some wf) = false)
    as Hmiss.
  { apply bool_decide_eq_false_2. destruct Hf as [-> | ->]; congruence. }
  unfold exec. rewrite wireEncode_run, Hmiss, andb_false_r.
  rewrite (bool_decide_eq_false_2 (wf = getDefaultWireFormat)) by done.
  assert (forall l', observeDefault (W (refresh d) l') = observeDefault (W d l)) as Hobs.
  { intros l'. rewrite !observeDefault_run.
    by rewrite (refresh_id _ (refresh_synced d)). }
  unfold getDefaultWireEncodingFormat, attr, gets.
  destruct (encodeData wf (fields d)) as [[[bs b] e]|x]; cbn [fst snd self codecCalls];
    (split; [done|]); (split; [done|]); (split; [apply Hobs|]);
    destruct Hf as [-> | ->]; congruence.
Qed.

(** C6. When the codec decodes the input, wireDecode returns; with the
    default format, getDefaultWireEncoding() is then the SignedBlob of
    Blob(input, True) (the input Blob itself, or a Blob holding a copy of
    the input array) with the decoder's offsets, its format is the default
    one, and the recorded change count is the packet's change count after
    the decode; with another format, getDefaultWireEncoding() is null and
    getDefaultWireEncodingFormat() is None. *)
Theorem wireDecode_sets_default_cache
    (w : World) (input : BlobArg) (wf : WireFormat) (fs : Fields) (b e : Z) :
  decodeData wf (decodeBuffer input) = Ok (fs, b, e) ->
  let w1 := exec (wireDecode input wf) w in
  fst (wireDecode input wf w) = Ok tt
  /\ fields (self w1) = fs
  /\ getChangeCount w1 = (Ok (_changeCount (self w1)), w1)
  /\ _getDefaultWireEncodingChangeCount (self w1) = _changeCount (self w1)
  /\ if bool_decide (wf = getDefaultWireFormat)
     then
       getDefaultWireEncoding w1
       = (Ok (SignedBlob_new (ArgBlob (Blob_new input)) b e), w1)
       /\ sb_blob (SignedBlob_new (ArgBlob (Blob_new input)) b e)
          = match input with ArgBlob blob => blob | ArgArray a => Some a end
       /\ getDefaultWireEncodingFormat w1 = (Ok (Some getDefaultWireFormat), w1)
     else
       getDefaultWireEncoding w1 = (Ok SignedBlob_null, w1)
       /\ getDefaultWireEncodingFormat w1 = (Ok None, w1).
Proof.
  intros Hdec. destruct w as [d l]. cbn zeta. unfold exec.
  rewrite wireDecode_run, Hdec. cbn [fst snd self].
  set (entry := decodedEntry input wf b e).
  set (d1 := cacheStore (fst entry) (snd entry) (populate fs d)).
  pose proof (cacheStore_synced (fst entry) (snd entry) (populate fs d)) as Hs.
  fold d1 in Hs. pose proof Hs as [Hst Hg]%synced_iff.
  destruct (cacheStore_cache (fst entry) (snd entry) (populate fs d)) as [He Hf].
  fold d1 in He, Hf.
  split; [done|]. split.
  { unfold d1. by rewrite cacheStore_fields, populate_fields. }
  split.
  { by rewrite getChangeCount_run, (settle_id _ Hst). }
  split; [done|].
  rewrite getDefaultWireEncoding_run, (refresh_id _ Hs), He.
  unfold getDefaultWireEncodingFormat, attr, gets. cbn [self]. rewrite Hf.
  unfold entry, decodedEntry. case_bool_decide; cbn [fst snd]; [|done].
  split; [done|]. split; [|done]. by destruct input.
Qed.

Lemma holds_decodes (d : Data) sb :
  Inv d -> holds sb d ->
  (forall bs b e,
      encodeData getDefaultWireFormat (fields d) = Ok (bs, b, e) ->
      exists b' e', decodeData getDefaultWireFormat (Some bs)
                    = Ok (fields d, b', e')) ->
  exists b' e', decodeData getDefaultWireFormat (buf (sb_blob sb))
                = Ok (fields d, b', e').
Proof.
  intros [_ _ _ Hx] (Hs & He & Hn & Hf) Hc. rewrite <- He in Hn |- *.
  destruct (Hx Hs Hn) as [_ [(bs & b & e & Henc & Hsb) | Hdec]]; [|done].
  rewrite Hsb. by apply (Hc bs b e).
Qed.

(** C9. For a packet P a program can hold and a wire format whose decoder
    inverts its encoder at P: when wireEncode(P) returns, wireDecode of the
    returned blob into a fresh Data() with the same format returns too, and
    the fresh packet then has P's name components, metadata and content. *)
Theorem wireDecode_wireEncode_roundtrip
    (w w1 : World) (wf : WireFormat) (sb : SignedBlob)
    (name0 : NameArg) (calls : list (CodecCall WireFormat)) :
  reachable w ->
  (forall bs b e,
      encodeData wf (fields (self w)) = Ok (bs, b, e) ->
      exists b' e', decodeData wf (Some bs) = Ok (fields (self w), b', e')) ->
  wireEncode wf w = (Ok sb, w1) ->
  let q := {| self := __init__ name0; codecCalls := calls |} in
  fst (wireDecode (ArgBlob (sb_blob sb)) wf q) = Ok tt
  /\ fields (self (exec (wireDecode (ArgBlob (sb_blob sb)) wf) q))
     = fields (self w)
  /\ fields (self w1) = fields (self w).
Proof.
  intros Hr Hc Henc. pose proof (reachable_Inv _ Hr) as HI.
  destruct w as [d l]. cbn [self] in *. cbn zeta.
  assert (fields (self w1) = fields d
          /\ exists b' e', decodeData wf (buf (sb_blob sb)) = Ok (fields d, b', e'))
    as [Hfs (b' & e' & Hdec)].
  { rewrite wireEncode_run in Henc.
    destruct (negb _ && _) eqn:Hhit.
    - injection Henc as <- <-. cbn [self]. split; [apply refresh_fields|].
      apply andb_true_iff in Hhit as [Hn%negb_true_iff Hf%bool_decide_eq_true].
      pose proof (Inv_refresh _ HI) as HI'.
      destruct (inv_faithful _ HI' (refresh_synced d) Hn) as [Hfd _].
      assert (wf = getDefaultWireFormat) as -> by congruence.
      rewrite <- (refresh_fields d) in Hc |- *.
      apply holds_decodes; [done| |done].
      by split; [apply refresh_synced|].
    - destruct (encodeData wf (fields d)) as [[[bs b] e]|x] eqn:He; [|done].
      injection Henc as <- <-. cbn [self]. split.
      + destruct (bool_decide (wf = getDefaultWireFormat));
          [|apply refresh_fields].
        by rewrite cacheStore_fields, refresh_fields.
      + by apply (Hc bs b e). }
  split; [|split; [|done]].
  - rewrite wireDecode_run.
    change (decodeBuffer (ArgBlob (sb_blob sb))) with (buf (sb_blob sb)).
    by rewrite Hdec.
  - unfold exec. rewrite wireDecode_run.
    change (decodeBuffer (ArgBlob (sb_blob sb))) with (buf (sb_blob sb)).
    rewrite Hdec. cbn [snd self].
    by rewrite cacheStore_fields, populate_fields.
Qed.

Lemma quiet_perform o (d : Data) l :
  settled d = true -> isMutation o = false ->
  settled (self (perform o (W d l))) = true
  /\ _changeCount (self (perform o (W d l))) = _changeCount d.
Proof.
  intros Hs Hq. destruct o; try done; cbn [perform].
  - unfold exec. rewrite getChangeCount_run. cbn. by rewrite (settle_id _ Hs).
  - unfold exec. rewrite getDefaultWireEncoding_run. cbn.
    pose proof (refresh_synced d) as [? _]%synced_iff.
    by rewrite refresh_count, (settle_id _ Hs).
  - pose proof (refresh_synced d) as [Hrs _]%synced_iff.
    assert (_changeCount (refresh d) = _changeCount d) as Hrc
      by by rewrite refresh_count, (settle_id _ Hs).
    unfold exec. rewrite wireEncode_run.
    destruct (negb _ && _); [done|].
    destruct (encodeData _ _) as [[[bs b] e]|x]; [|done].
    cbn [snd self]. case_bool_decide; [|done].
    pose proof (cacheStore_synced (SignedBlob_new (ArgArray bs) b e)
                  (Some getDefaultWireFormat) (refresh d)) as [? _]%synced_iff.
    by rewrite cacheStore_count, (settle_id _ Hrs).
Qed.

Lemma quiet_run ops (d : Data) l :
  settled d = true ->
  _changeCount
    (self (run (filter (fun o => isMutation o = false) ops) (W d l)))
  = _changeCount d
  /\ settled
       (self (run (filter (fun o => isMutation o = false) ops) (W d l)))
     = true.
Proof.
  revert d l. induction ops as [|o ops IH]; intros d l Hs; [done|].
  destruct (decide (isMutation o = false)) as [Hq|Hq].
  - rewrite filter_cons_True by done. rewrite run_cons.
    destruct (quiet_perform o d l Hs Hq) as [Hs' Hc'].
    rewrite (perform_run o).
    destruct (IH _ (codecCalls (perform o (W d l))) Hs') as [-> ->].
    done.
  - rewrite filter_cons_False by done. by apply IH.
Qed.

(** C10. getChangeCount always returns; after any sequence of steps on the
    packet, the next call returns at least what the previous call
    returned; and when only the steps that are no mutation are run in
    between (none, in particular), it returns the same value. *)
Theorem getChangeCount_monotone (w : World) (ops : list Op) :
  let w1 := exec getChangeCount w in
  exists c1 c2 : Z,
    fst (getChangeCount w) = Ok c1
    /\ fst (getChangeCount (run ops w1)) = Ok c2
    /\ c1 <= c2
    /\ fst (getChangeCount w1) = Ok c1
    /\ fst (getChangeCount
              (run (filter (fun o => isMutation o = false) ops) w1))
       = Ok c1.
Proof.
  destruct w as [d l]. cbn zeta. unfold exec. rewrite getChangeCount_run.
  cbn [fst snd].
  exists (_changeCount (settle d)),
    (_changeCount (settle (self (run ops (W (settle d) l))))).
  split; [done|].
  rewrite (W_eta (run ops _)), getChangeCount_run. split; [done|].
  split.
  { pose proof (run_count ops (W (settle d) l)).
    pose proof (settle_count_bounds (self (run ops (W (settle d) l)))).
    cbn [self] in *. lia. }
  split.
  { by rewrite getChangeCount_run, settle_idem. }
  destruct (quiet_run ops (settle d) l (settle_settled d)) as [Hc Hs].
  rewrite (W_eta (run (filter _ ops) _)), getChangeCount_run. cbn [fst].
  by rewrite (settle_id _ Hs), Hc.
Qed.

End Facts.
End data_facts.

(* ===================================================================== *)
(** ** The IdentityStorage class: facts *)
(* ===================================================================== *)

Module identity_storage_facts.
Section Facts.
Context {Store IdentityCertificate : Type}.
#[local] Abbreviation IdentityStorage := (IdentityStorage Store IdentityCertificate).

Ltac not_implemented_by method := intros; intros s; by exists method.

(** C8. Called on the base class itself, each of the seventeen methods
    it leaves to a subclass raises RuntimeError with a message ending in
    "is not implemented", for every argument and every store, returns
    nothing and leaves the store as it is. *)
Theorem base_class_raises_not_implemented :
  let base : IdentityStorage := IdentityStorage_base in
  (forall n, raisesNotImplemented (doesIdentityExist base n))
  /\ (forall n, raisesNotImplemented (addIdentity base n))
  /\ raisesNotImplemented (revokeIdentity base)
  /\ (forall k, raisesNotImplemented (doesKeyExist base k))
  /\ (forall k t der, raisesNotImplemented (addKey base k t der))
  /\ (forall k, raisesNotImplemented (getKey base k))
  /\ (forall k, raisesNotImplemented (activateKey base k))
  /\ (forall k, raisesNotImplemented (deactivateKey base k))
  /\ (forall c, raisesNotImplemented (doesCertificateExist base c))
  /\ (forall c, raisesNotImplemented (addCertificate base c))
  /\ (forall c allowAny, raisesNotImplemented (getCertificate base c allowAny))
  /\ raisesNotImplemented (getDefaultIdentity base)
  /\ (forall n, raisesNotImplemented (getDefaultKeyNameForIdentity base n))
  /\ (forall k, raisesNotImplemented (getDefaultCertificateNameForKey base k))
  /\ (forall n, raisesNotImplemented (setDefaultIdentity base n))
  /\ (forall k check, raisesNotImplemented (setDefaultKeyNameForIdentity base k check))
  /\ (forall k c, raisesNotImplemented (setDefaultCertificateNameForKey base k c)).
Proof.
  cbn zeta. repeat split.
  - not_implemented_by "doesIdentityExist".
  - not_implemented_by "doesIdentityExist".
  - not_implemented_by "doesIdentityExist".
  - not_implemented_by "doesKeyExist".
  - not_implemented_by "addKey".
  - not_implemented_by "getKey".
  - not_implemented_by "activateKey".
  - not_implemented_by "deactivateKey".
  - not_implemented_by "doesCertificateExist".
  - not_implemented_by "addCertificate".
  - not_implemented_by "getCertificate".
  - not_implemented_by "getDefaultIdentity".
  - not_implemented_by "getDefaultKeyNameForIdentity".
  - not_implemented_by "getDefaultCertificateNameForKey".
  - not_implemented_by "setDefaultIdentity".
  - not_implemented_by "setDefaultKeyNameForIdentity".
  - not_implemented_by "setDefaultCertificateNameForKey".
Qed.

(** The method as the module defines it raises NameError at
    [Name(identityName)], whatever the backend, the time and the
    arguments: the module never imports Name. The store is not consulted. *)
Lemma getNewKeyName_raises_NameError
    (self : IdentityStorage) (nowMilliseconds : Z) (identityName : Name)
    (useKsk : bool) (s : Store) :
  getNewKeyName self nowMilliseconds identityName useKsk s
  = (Raise (NameError "Name"), s).
Proof. reflexivity. Qed.

Lemma load_global_bound (globals : list string) x (s : Store) :
  x ∈ globals -> load_global globals x s = (Ok tt, s).
Proof. intros Hx. unfold load_global. by rewrite bool_decide_eq_true_2. Qed.

Lemma load_global_state (globals : list string) x (s : Store) :
  snd (load_global globals x s) = s.
Proof. unfold load_global. by case_bool_decide. Qed.

(** With Name among the module's globals the body does what its
    docstring says. *)
Lemma getNewKeyName_in_bound (globals : list string)
    (self : IdentityStorage) (nowMilliseconds : Z) (identityName : Name)
    (useKsk : bool) (s : Store) :
  "math" ∈ globals -> "Common" ∈ globals -> "Name" ∈ globals ->
  "SecurityException" ∈ globals ->
  getNewKeyName_in globals self nowMilliseconds identityName useKsk s
  = match doesKeyExist self (keyNameFor nowMilliseconds identityName useKsk) s with
    | (Ok true, s') => (Raise (SecurityException "Key name already exists"), s')
    | (Ok false, s') => (Ok (keyNameFor nowMilliseconds identityName useKsk), s')
    | (Raise e, s') => (Raise e, s')
    end.
Proof.
  intros Hm Hc Hn Hs. unfold getNewKeyName_in, mbind, M_bind.
  rewrite !load_global_bound by done.
  destruct useKsk;
    change (append (Name_new (ArgName identityName)) _)
      with (keyNameFor nowMilliseconds identityName true) ||
    change (append (Name_new (ArgName identityName)) _)
      with (keyNameFor nowMilliseconds identityName false).
  all: destruct (doesKeyExist self _ s) as [[[|]|e] s']; try done.
  all: by rewrite load_global_bound.
Qed.

(** C7. getNewKeyName leaves the store as it found it, whether it returns
    a name or raises, given that doesKeyExist only reads; doesKeyExist is
    the only method of the backend its outcome depends on. This holds for
    the method as the module defines it and for its body under any other
    set of module globals. *)
Theorem getNewKeyName_leaves_store (globals : list string)
    (self : IdentityStorage) (nowMilliseconds : Z) (identityName : Name)
    (useKsk : bool) (s : Store) :
  (forall k s', snd (doesKeyExist self k s') = s') ->
  snd (getNewKeyName_in globals self nowMilliseconds identityName useKsk s) = s
  /\ snd (getNewKeyName self nowMilliseconds identityName useKsk s) = s
  /\ forall self' : IdentityStorage,
       doesKeyExist self' = doesKeyExist self ->
       getNewKeyName_in globals self' nowMilliseconds identityName useKsk
       = getNewKeyName_in globals self nowMilliseconds identityName useKsk.
Proof.
  intros Hro. split; [|split; [done|]].
  - unfold getNewKeyName_in, mbind, M_bind, load_global.
    repeat (case_bool_decide; [|done]). cbn.
    match goal with |- context [doesKeyExist self ?k s] =>
      pose proof (Hro k s) as Hk; destruct (doesKeyExist self k s) as [[[|]|e] s']
    end; cbn in *; subst; by repeat case_bool_decide.
  - intros self' Heq. unfold getNewKeyName_in. by rewrite Heq.
Qed.

(** Once the default key name is resolved, the bare call
    [getDefaultCertificateNameForKey(keyName)] (no [self.]) raises
    NameError: the method never returns. *)
Lemma getDefaultCertificateNameForIdentity_raises_NameError
    (self : IdentityStorage) (identityName : Name) (s : Store) :
  getDefaultCertificateNameForIdentity self identityName s
  = match getDefaultKeyNameForIdentity self identityName s with
    | (Ok _, s') => (Raise (NameError "getDefaultCertificateNameForKey"), s')
    | (Raise e, s') => (Raise e, s')
    end.
Proof.
  unfold getDefaultCertificateNameForIdentity, mbind, M_bind.
  by destruct (getDefaultKeyNameForIdentity self identityName s) as [[k|e] s'].
Qed.

End Facts.
End identity_storage_facts.

(* ===================================================================== *)
(** ** The theorems at concrete packets and stores *)
(* ===================================================================== *)

Module examples.
Import fixtures data_facts identity_storage_facts.
#[local] Existing Instance toy.
#[local] Existing Instance observing.

Lemma reachable_written : reachable written.
Proof.
  exact (reachable_step _ (CallSetContent (ArgArray hello))
           (reachable_init (ArgOther ["a"; "b"]) [])).
Qed.

Lemma encoded_step : encoded = perform (CallWireEncode 0%nat) written.
Proof. vm_compute. reflexivity. Qed.

Lemma reachable_encoded : reachable encoded.
Proof. rewrite encoded_step. exact (reachable_step _ _ reachable_written). Qed.

Lemma reachable_stale : reachable stale.
Proof.
  exact (reachable_step _ (CallSetContent (ArgArray [x21])) reachable_encoded).
Qed.

Lemma written_encodes : wireEncode 0%nat written = (Ok helloBlob, encoded).
Proof. vm_compute. reflexivity. Qed.

Lemma wireEncode_default_twice_witness :
  wireEncode 0%nat written = (Ok helloBlob, encoded)
  /\ wireEncode 0%nat (run [CallGetChangeCount; CallWireEncode 1%nat] encoded)
     = (Ok helloBlob, run [CallGetChangeCount; CallWireEncode 1%nat] encoded).
Proof.
  split; [exact written_encodes|].
  exact (proj1 (wireEncode_default_twice written encoded helloBlob
                  [CallGetChangeCount; CallWireEncode 1%nat]
                  written_encodes eq_refl)).
Defined.

Lemma encoded_cached : defaultEncodingCached encoded = true.
Proof. vm_compute. reflexivity. Qed.

Lemma setter_then_wireEncode_encodes_once_witness :
  reachable encoded
  /\ defaultEncodingCached encoded = true
  /\ codecCalls (exec (wireEncode 0%nat) stale)
     = codecCalls stale ++ [EncodeData 0%nat].
Proof.
  split; [exact reachable_encoded|]. split; [exact encoded_cached|].
  pose proof (proj1 (proj2 (setter_then_wireEncode_encodes_once encoded
                         (SetContent (ArgArray [x21]))
                         reachable_encoded encoded_cached))) as Hw.
  vm_compute in Hw. vm_compute. exact Hw.
Defined.

Lemma wireEncode_other_format_keeps_default_cache_witness :
  reachable encoded
  /\ 1%nat <> getDefaultWireFormat
  /\ observeDefault (exec (wireEncode 1%nat) encoded) = observeDefault encoded.
Proof.
  split; [exact reachable_encoded|]. split; [discriminate|].
  refine (proj1 (proj2 (proj2
    (wireEncode_other_format_keeps_default_cache encoded 1%nat
       reachable_encoded _)))).
  discriminate.
Defined.

(** Read on its own, getDefaultWireEncodingFormat() can change across a
    wireEncode with a non-default format: on a packet whose cache is stale
    the getter still shows the default format before the call, and the
    call's getDefaultWireEncoding() resets it to None. *)
Lemma getDefaultWireEncodingFormat_alone_is_reset :
  reachable stale
  /\ 1%nat <> getDefaultWireFormat
  /\ fst (getDefaultWireEncodingFormat stale) = Ok (Some 0%nat)
  /\ fst (getDefaultWireEncodingFormat (exec (wireEncode 1%nat) stale))
     = Ok None.
Proof.
  split; [apply reachable_stale|]. split; [discriminate|].
  split; vm_compute; reflexivity.
Qed.

Lemma wireDecode_sets_default_cache_witness :
  decodeData 0%nat (decodeBuffer (ArgArray wire))
  = Ok ({| f_name := ["a"]; f_metaInfo := (0, None); f_content := Some [x68] |},
        0, 4)
  /\ getDefaultWireEncoding (exec (wireDecode (ArgArray wire) 0%nat) fresh)
     = (Ok (SignedBlob_new (ArgBlob (Blob_new (ArgArray wire))) 0 4),
        exec (wireDecode (ArgArray wire) 0%nat) fresh).
Proof.
  split; [vm_compute; reflexivity|].
  exact (proj1 (proj2 (proj2 (proj2 (proj2
    (wireDecode_sets_default_cache fresh (ArgArray wire) 0%nat
       {| f_name := ["a"]; f_metaInfo := (0, None); f_content := Some [x68] |}
       0 4 eq_refl)))))).
Defined.

Lemma written_inverts (bs : list byte) (b e : Z) :
  encodeData 0%nat (fields (self written)) = Ok (bs, b, e) ->
  exists b' e', decodeData 0%nat (Some bs) = Ok (fields (self written), b', e').
Proof.
  intros Henc. vm_compute in Henc. injection Henc as <- <- <-.
  exists 0, 10. vm_compute. reflexivity.
Qed.

Lemma wireDecode_wireEncode_roundtrip_witness :
  reachable written
  /\ wireEncode 0%nat written = (Ok helloBlob, encoded)
  /\ fields (self (exec (wireDecode (ArgBlob (sb_blob helloBlob)) 0%nat)
                     {| self := __init__ (ArgOther []); codecCalls := [] |}))
     = fields (self written).
Proof.
  split; [exact reachable_written|]. split; [exact written_encodes|].
  exact (proj1 (proj2
    (wireDecode_wireEncode_roundtrip written encoded 0%nat helloBlob
       (ArgOther []) [] reachable_written written_inverts written_encodes))).
Defined.

Lemma memory_doesKeyExist_reads (k : Name) (s' : MemoryStore) :
  snd (doesKeyExist memory k s') = s'.
Proof. reflexivity. Qed.

Lemma getNewKeyName_leaves_store_witness :
  (forall k s', snd (doesKeyExist memory k s') = s')
  /\ snd (getNewKeyName_in ("Name" :: module_globals) memory 1400000000123
            alice true store) = store.
Proof.
  split; [exact memory_doesKeyExist_reads|].
  exact (proj1 (getNewKeyName_leaves_store ("Name" :: module_globals) memory
                   1400000000123 alice true store memory_doesKeyExist_reads)).
Defined.

(** C3 (the code departs from it). For /alice, KSK, at 1400000000123 ms
    and a store without /alice/KSK-1400000000, the claim gives the name
    /alice/KSK-1400000000; the method raises NameError for [Name], which
    identity_storage.py never imports. With Name bound the same body
    returns the claimed name. *)
Theorem getNewKeyName_at_alice :
  fst (doesKeyExist memory (keyNameFor 1400000000123 alice true) store)
  = Ok false
  /\ fst (getNewKeyName memory 1400000000123 alice true store)
     = Raise (NameError "Name")
  /\ fst (getNewKeyName_in ("Name" :: module_globals) memory 1400000000123
            alice true store)
     = Ok (keyNameFor 1400000000123 alice true)
  /\ components (keyNameFor 1400000000123 alice true)
     = ["alice"; "KSK-1400000000"].
Proof. repeat split; vm_compute; reflexivity. Qed.

(** C4 (the code departs from it). For /alice, whose default key is
    /alice/KSK-1 with default certificate /alice/KSK-1/ID-CERT/0, the
    composition of the two lookups gives that certificate name; the method
    raises NameError, because it calls getDefaultCertificateNameForKey as
    a bare name, without [self.]. *)
Theorem getDefaultCertificateNameForIdentity_at_alice :
  fst (getDefaultCertificateNameForIdentity memory alice store)
  = Raise (NameError "getDefaultCertificateNameForKey")
  /\ fst ((keyName ← getDefaultKeyNameForIdentity memory alice;
           getDefaultCertificateNameForKey memory keyName) store)
     = Ok {| components := ["alice"; "KSK-1"; "ID-CERT"; "0"];
            name_changeCount := 0 |}.
Proof. split; vm_compute; reflexivity. Qed.

End examples.

(* ===================================================================== *)
(** ** The Data class: more of its behaviour *)
(* ===================================================================== *)

Module data_coverage.
Import data_facts.
Section Coverage.
Context {WireFormat : Type} `{WireFormats WireFormat} `{Baselines}.
#[local] Abbreviation Data := (Data WireFormat).
#[local] Abbreviation World := (World WireFormat).
#[local] Abbreviation W d l := (Build_World WireFormat d l).
#[local] Arguments getChangeCount : simpl never.
#[local] Arguments getDefaultWireEncoding : simpl never.
#[local] Arguments _setDefaultWireEncoding : simpl never.
#[local] Arguments call_encodeData : simpl never.
#[local] Arguments call_decodeData : simpl never.
#[local] Arguments wireEncode : simpl never.
#[local] Arguments wireDecode : simpl never.

(** What each step leaves in the packet. *)
Lemma perform_self o (d : Data) l :
  self (perform o (W d l)) =
    match o with
    | CallSetName name => applied (SetName name) d
    | CallSetMetaInfo metaInfo => applied (SetMetaInfo metaInfo) d
    | CallSetContent content => applied (SetContent content) d
    | CallGetChangeCount => settle d
    | CallGetDefaultWireEncoding => refresh d
    | CallWireEncode wf => self (exec (wireEncode wf) (W d l))
    | CallWireDecode input wf => self (exec (wireDecode input wf) (W d l))
    | MutateName f k => self (exec (mutateName f k) (W d l))
    | MutateMetaInfo f k => self (exec (mutateMetaInfo f k) (W d l))
    | _ => d
    end.
Proof.
  destruct o; try done; cbn [perform]; unfold exec.
  - by rewrite getChangeCount_run.
  - by rewrite getDefaultWireEncoding_run.
Qed.

Lemma wireEncode_self wf (d : Data) l :
  self (exec (wireEncode wf) (W d l)) = refresh d
  \/ exists sb, self (exec (wireEncode wf) (W d l))
                = cacheStore sb (Some getDefaultWireFormat) (refresh d).
Proof.
  unfold exec. rewrite wireEncode_run.
  destruct (negb _ && _); [by left|].
  destruct (encodeData _ _) as [[[bs b] e]|x]; [|by left].
  cbn [snd self]. destruct (bool_decide _); [right; by eexists|by left].
Qed.

Lemma wireDecode_self input wf (d : Data) l :
  self (exec (wireDecode input wf) (W d l)) = d
  \/ exists sb f fs, self (exec (wireDecode input wf) (W d l))
                     = cacheStore sb f (populate fs d).
Proof.
  unfold exec. rewrite wireDecode_run.
  destruct (decodeData _ _) as [[[fs b] e]|x]; [|by left].
  right. by eexists _, _, _.
Qed.

(** The trackers after the methods that poll them. *)
Lemma settle_same (d : Data) :
  _changeCount (settle d) = _changeCount d -> settle d = d.
Proof.
  intros Hc. destruct (settled d) eqn:Hs; [by apply settle_id|].
  rewrite (settle_count_settled _ Hs) in Hc. lia.
Qed.

Lemma refresh_trackers (d : Data) :
  _name (refresh d) = _name (settle d)
  /\ _metaInfo (refresh d) = _metaInfo (settle d).
Proof. rewrite refresh_unfold. by case_bool_decide. Qed.

Lemma cacheStore_trackers e f (d : Data) :
  _name (cacheStore e f d) = _name (settle d)
  /\ _metaInfo (cacheStore e f d) = _metaInfo (settle d).
Proof. by rewrite cacheStore_unfold. Qed.


(** A packet whose recorded count is not its count after polling has no
    cached encoding to offer: wireEncode goes to the codec. *)
Lemma refresh_stale (d : Data) :
  _getDefaultWireEncodingChangeCount d ≠ _changeCount (settle d) ->
  refresh d = invalidated d.
Proof. intros Hne. rewrite refresh_unfold. by rewrite bool_decide_eq_true_2. Qed.

Lemma wireEncode_stale wf (d : Data) l :
  _getDefaultWireEncodingChangeCount d ≠ _changeCount (settle d) ->
  fst (wireEncode wf (W d l)) = encodeDirect wf d
  /\ codecCalls (exec (wireEncode wf) (W d l)) = l ++ [EncodeData wf]
  /\ observeDefault (W d l) = (Ok SignedBlob_null, Ok None).
Proof.
  intros Hne. rewrite observeDefault_run. unfold exec, encodeDirect.
  rewrite wireEncode_run, (refresh_stale _ Hne). cbn.
  by destruct (encodeData wf (fields d)) as [[[bs b] e]|x].
Qed.

(** X1. What wireEncode with the default format returns on a packet a
    program can hold is never stale: it is the SignedBlob of what the
    default encoder gives for the packet as it is now, or (after a
    wireDecode) bytes from which the default decoder reads the packet as
    it is now. *)
Theorem wireEncode_default_never_stale (w w1 : World) (sb : SignedBlob) :
  reachable w ->
  wireEncode getDefaultWireFormat w = (Ok sb, w1) ->
  encodeDirect getDefaultWireFormat (self w) = Ok sb
  \/ exists b e,
       decodeData getDefaultWireFormat (buf (sb_blob sb))
       = Ok (fields (self w), b, e).
Proof.
  intros HI%reachable_Inv Henc. destruct w as [d l]. cbn [self] in *.
  unfold encodeDirect. rewrite wireEncode_run in Henc.
  destruct (negb _ && _) eqn:Hhit.
  - injection Henc as <- _.
    apply andb_true_iff in Hhit as [Hn%negb_true_iff _].
    destruct (inv_faithful _ (Inv_refresh _ HI) (refresh_synced d) Hn)
      as [_ [(bs & b & e & He & Hsb) | Hdec]].
    + left. rewrite refresh_fields in He. by rewrite He, Hsb.
    + right. by rewrite refresh_fields in Hdec.
  - left. destruct (encodeData _ _) as [[[bs b] e]|x]; [|done].
    by injection Henc as <- _.
Qed.

(** X2. As its docstring says, a wireEncode with the default format that
    returns leaves its result as the default wire encoding:
    getDefaultWireEncoding() then returns that same SignedBlob, changing
    nothing, and getDefaultWireEncodingFormat() is the default format. *)
Theorem wireEncode_default_sets_default_encoding
    (w w1 : World) (sb : SignedBlob) :
  wireEncode getDefaultWireFormat w = (Ok sb, w1) ->
  getDefaultWireEncoding w1 = (Ok sb, w1)
  /\ getDefaultWireEncodingFormat w1 = (Ok (Some getDefaultWireFormat), w1)
  /\ sb_isNull sb = false.
Proof.
  destruct w as [d l]. intros Hh%wireEncode_default_holds.
  destruct w1 as [d1 l1]. destruct Hh as (Hs & He & Hn & Hf). cbn [self] in *.
  rewrite getDefaultWireEncoding_run, (refresh_id _ Hs), He.
  unfold getDefaultWireEncodingFormat, attr, gets. cbn [self]. by rewrite Hf.
Qed.

(** X3. After a wireDecode with the default format that returns, on an
    input that is not a null Blob, wireEncode with the default format gives
    back the input bytes with the decoder's offsets and does not call the
    codec: the packet is not encoded again. *)
Theorem wireDecode_then_wireEncode_returns_input
    (w : World) (input : BlobArg) (fs : Fields) (b e : Z) :
  decodeData getDefaultWireFormat (decodeBuffer input) = Ok (fs, b, e) ->
  isNull (Blob_new input) = false ->
  let w1 := exec (wireDecode input getDefaultWireFormat) w in
  wireEncode getDefaultWireFormat w1
  = (Ok (SignedBlob_new (ArgBlob (Blob_new input)) b e), w1)
  /\ buf (sb_blob (SignedBlob_new (ArgBlob (Blob_new input)) b e))
     = decodeBuffer input
  /\ codecCalls w1 = codecCalls w ++ [DecodeData getDefaultWireFormat].
Proof.
  intros Hdec Hnn. destruct w as [d l]. cbn zeta. unfold exec.
  rewrite wireDecode_run, Hdec. cbn [snd codecCalls].
  unfold decodedEntry. rewrite bool_decide_eq_true_2 by done. cbn [fst snd].
  split; [|split; [by destruct input|done]].
  apply holds_wireEncode. split; [apply cacheStore_synced|].
  by destruct (cacheStore_cache
                 (SignedBlob_new (ArgBlob (Blob_new input)) b e)
                 (Some getDefaultWireFormat) (populate fs d)) as [-> ->].
Qed.

(** X4. On a packet a program can hold, right after any setter the cache
    is out of sight: getDefaultWireEncoding() is the null SignedBlob and
    getDefaultWireEncodingFormat(), read after it, is None; and the next
    wireEncode, with any format, returns what the codec gives for the
    packet as the setter left it. *)
Theorem setter_hides_default_encoding (w : World) (s : Setter) (wf : WireFormat) :
  reachable w ->
  let w1 := exec (callSetter s) w in
  observeDefault w1 = (Ok SignedBlob_null, Ok None)
  /\ fst (wireEncode wf w1) = encodeDirect wf (self w1).
Proof.
  intros [Hc _ _ _]%reachable_Inv. destruct w as [d l]. cbn [self] in Hc.
  cbn zeta. rewrite exec_callSetter. cbn [self].
  assert (_getDefaultWireEncodingChangeCount (applied s d)
          ≠ _changeCount (settle (applied s d))) as Hne.
  { destruct (applied_cache s d) as (_ & _ & ->).
    pose proof (settle_count_bounds (applied s d)) as Hb.
    rewrite applied_count in Hb. lia. }
  destruct (wireEncode_stale wf _ l Hne) as (Hr & _ & Ho). by split.
Qed.

Lemma holds_inPlace sb o (d : Data) l :
  holds sb d -> isInPlace o = true ->
  _getDefaultWireEncodingChangeCount (self (perform o (W d l)))
  ≠ _changeCount (settle (self (perform o (W d l)))).
Proof.
  intros (Hs & _) Ho. apply synced_iff in Hs as [[Hn Hm]%settled_iff Hg].
  destruct o; try done; cbn [perform].
  - rewrite settle_count_settled; [cbn; lia|].
    apply not_true_iff_false. intros [Hn' _]%settled_iff. cbn in Hn'.
    unfold targetChangeCount, Name_counted in *. cbn in Hn'. lia.
  - rewrite settle_count_settled; [cbn; lia|].
    apply not_true_iff_false. intros [_ Hm']%settled_iff. cbn in Hm'.
    unfold targetChangeCount, MetaInfo_counted in *. cbn in Hm'. lia.
Qed.

(** X5. A change made in place to the name or the metaInfo, through the
    object getName() or getMetaInfo() returned, is noticed: after a
    wireEncode with the default format has returned, one such change makes
    getDefaultWireEncoding() null again, and the next wireEncode with the
    default format calls encodeData once more and returns what the codec
    gives for the changed packet. *)
Theorem change_in_place_invalidates_cache
    (w w1 : World) (sb : SignedBlob) (o : Op) :
  wireEncode getDefaultWireFormat w = (Ok sb, w1) ->
  isInPlace o = true ->
  let w2 := perform o w1 in
  observeDefault w2 = (Ok SignedBlob_null, Ok None)
  /\ fst (wireEncode getDefaultWireFormat w2)
     = encodeDirect getDefaultWireFormat (self w2)
  /\ codecCalls (exec (wireEncode getDefaultWireFormat) w2)
     = codecCalls w1 ++ [EncodeData getDefaultWireFormat].
Proof.
  destruct w as [d l]. intros Hh%wireEncode_default_holds Ho.
  destruct w1 as [d1 l1]. cbn [self] in Hh. cbn zeta.
  pose proof (holds_inPlace sb o d1 l1 Hh Ho) as Hne.
  assert (codecCalls (perform o (W d1 l1)) = l1) as Hl
    by by destruct o.
  rewrite (perform_run o).
  destruct (wireEncode_stale getDefaultWireFormat _
              (codecCalls (perform o (W d1 l1))) Hne) as (Hr & Hc & Hob).
  rewrite Hl in Hc |- *. cbn [self codecCalls]. by rewrite Hl in Hr, Hob.
Qed.

(** X6. When wireEncode with the default format raises on a packet a
    program can hold, what it raises is what encodeData raised, nothing is
    cached (getDefaultWireEncoding() stays null), the packet's name,
    metaInfo and content are as before, and a second call goes to the
    codec again. *)
Theorem wireEncode_default_failure_is_not_cached (w : World) (x : Exn) :
  reachable w ->
  fst (wireEncode getDefaultWireFormat w) = Raise x ->
  let w1 := exec (wireEncode getDefaultWireFormat) w in
  encodeData getDefaultWireFormat (fields (self w)) = Raise x
  /\ codecCalls w1 = codecCalls w ++ [EncodeData getDefaultWireFormat]
  /\ (exists e, fst (getDefaultWireEncoding w1) = Ok e /\ sb_isNull e = true)
  /\ fields (self w1) = fields (self w)
  /\ codecCalls (exec (wireEncode getDefaultWireFormat) w1)
     = codecCalls w1 ++ [EncodeData getDefaultWireFormat].
Proof.
  intros HI%reachable_Inv Hx. destruct w as [d l]. cbn [self codecCalls] in *.
  cbn zeta. unfold exec. rewrite wireEncode_run in Hx |- *.
  destruct (sb_isNull (_defaultWireEncoding (refresh d))) eqn:Hn; cbn [negb andb] in *.
  - destruct (encodeData getDefaultWireFormat (fields d)) as [[[bs b] e]|y] eqn:He;
      [done|].
    injection Hx as ->. cbn [snd self codecCalls].
    rewrite getDefaultWireEncoding_run, wireEncode_run.
    rewrite (refresh_id _ (refresh_synced d)), Hn, refresh_fields, He.
    cbn. repeat split; eauto.
  - destruct (inv_faithful _ (Inv_refresh _ HI) (refresh_synced d) Hn) as [Hf _].
    rewrite Hf, bool_decide_eq_true_2 in Hx by done. done.
Qed.


(** *** Packets that were never decoded *)

Lemma encoderMade_unsynced (d : Data) : synced d = false -> encoderMade d.
Proof. intros Hs Hs'. congruence. Qed.

Lemma synced_applied s (d : Data) : Inv d -> synced (applied s d) = false.
Proof.
  intros [Hc _ _ _]. apply not_true_iff_false. intros [_ Hg]%synced_iff.
  destruct (applied_cache s d) as (_ & _ & Hg'). rewrite Hg', applied_count in Hg.
  lia.
Qed.

Lemma encoderMade_settle (d : Data) :
  Inv d -> encoderMade d -> encoderMade (settle d).
Proof.
  intros [Hc _ _ _] He. destruct (settled d) eqn:Hs.
  - by rewrite (settle_id _ Hs).
  - intros [_ Hg]%synced_iff _. destruct (settle_cache d) as (_ & _ & Hg' & _).
    rewrite (settle_count_settled _ Hs), Hg' in Hg. lia.
Qed.

Lemma encoderMade_refresh (d : Data) :
  Inv d -> encoderMade d -> encoderMade (refresh d).
Proof.
  intros HI He. rewrite refresh_unfold. case_bool_decide.
  - intros _ Hn. done.
  - by apply encoderMade_settle.
Qed.

Lemma encoderMade_perform o (d : Data) l :
  isDecode o = false -> Inv d -> encoderMade d ->
  encoderMade (self (perform o (W d l))).
Proof.
  intros Ho HI He. pose proof HI as [Hc _ Hb _].
  destruct o; try done; cbn [perform].
  - change (exec (setName name) (W d l))
      with (exec (callSetter (SetName name)) (W d l)).
    rewrite exec_callSetter. by apply encoderMade_unsynced, synced_applied.
  - change (exec (setMetaInfo metaInfo) (W d l))
      with (exec (callSetter (SetMetaInfo metaInfo)) (W d l)).
    rewrite exec_callSetter. by apply encoderMade_unsynced, synced_applied.
  - change (exec (setContent content) (W d l))
      with (exec (callSetter (SetContent content)) (W d l)).
    rewrite exec_callSetter. by apply encoderMade_unsynced, synced_applied.
  - unfold exec. rewrite getChangeCount_run. by apply encoderMade_settle.
  - unfold exec. rewrite getDefaultWireEncoding_run. by apply encoderMade_refresh.
  - pose proof (encoderMade_refresh _ HI He) as Hr.
    unfold exec. rewrite wireEncode_run.
    destruct (negb _ && _); [done|].
    destruct (encodeData wireFormat (fields d)) as [[[bs b] e]|x] eqn:Henc;
      [|done].
    cbn [snd self]. case_bool_decide as Hwf; [|done].
    intros _ _. unfold encodeDirect.
    destruct (cacheStore_cache (SignedBlob_new (ArgArray bs) b e)
                (Some getDefaultWireFormat) (refresh d)) as [-> _].
    by rewrite cacheStore_fields, refresh_fields, <- Hwf, Henc.
  - intros [[Hn _]%settled_iff Hg]%synced_iff Hnn. cbn in *.
    destruct (Hb Hnn Hg) as [Hle _].
    unfold targetChangeCount, Name_counted in *. cbn in *. lia.
  - intros [[_ Hm]%settled_iff Hg]%synced_iff Hnn. cbn in *.
    destruct (Hb Hnn Hg) as [_ Hle].
    unfold targetChangeCount, MetaInfo_counted in *. cbn in *. lia.
Qed.

Lemma encoderMade_run ops (w : World) :
  forallb (fun o => negb (isDecode o)) ops = true ->
  Inv (self w) -> encoderMade (self w) ->
  Inv (self (run ops w)) /\ encoderMade (self (run ops w)).
Proof.
  revert w. induction ops as [|o ops IH]; intros w Hq HI He; [done|].
  cbn in Hq. apply andb_true_iff in Hq as [Ho%negb_true_iff Hq].
  rewrite run_cons. apply IH; [done|by apply Inv_perform|].
  rewrite (W_eta w). by apply encoderMade_perform.
Qed.

(** X7. On a packet that was constructed and then used without wireDecode,
    the cache cannot be told from the codec: wireEncode, with any format,
    returns or raises exactly what encodeData of that format gives for the
    packet as it is now. *)
Theorem wireEncode_is_encodeData_without_decode
    (name : NameArg) (calls : list (CodecCall WireFormat))
    (ops : list Op) (wf : WireFormat) :
  forallb (fun o => negb (isDecode o)) ops = true ->
  let w := run ops {| self := __init__ name; codecCalls := calls |} in
  fst (wireEncode wf w) = encodeDirect wf (self w).
Proof.
  intros Hq. cbn zeta.
  destruct (encoderMade_run ops (W (__init__ name) calls) Hq (Inv_init name))
    as [HI He]; [by intros _ Hn|].
  set (w := run ops _) in *. rewrite (W_eta w).
  generalize (self w) (codecCalls w) HI He. clear. intros d l HI He.
  rewrite wireEncode_run. cbn [self].
  destruct (negb _ && _) eqn:Hhit; [|unfold encodeDirect;
    by destruct (encodeData wf (fields d)) as [[[bs b] e]|x]].
  apply andb_true_iff in Hhit as [Hn%negb_true_iff Hf%bool_decide_eq_true].
  pose proof (Inv_refresh _ HI) as HI'.
  destruct (inv_faithful _ HI' (refresh_synced d) Hn) as [Hfd _].
  assert (wf = getDefaultWireFormat) as -> by congruence.
  pose proof (encoderMade_refresh _ HI He (refresh_synced d) Hn) as Hm.
  unfold encodeDirect in *. rewrite refresh_fields in Hm. by rewrite Hm.
Qed.


(** *** Changes and the change count *)

Lemma settled_views (d : Data) :
  settled d = true <->
  nameBaseline d = nameCount d /\ metaBaseline d = metaCount d.
Proof. apply settled_iff. Qed.

Lemma refresh_views (d : Data) :
  _changeCount (refresh d) = _changeCount d -> 
  nameBaseline (refresh d) = nameBaseline d
  /\ nameCount (refresh d) = nameCount d
  /\ metaBaseline (refresh d) = metaBaseline d
  /\ metaCount (refresh d) = metaCount d.
Proof.
  rewrite refresh_count. intros Hc%settle_same.
  unfold nameBaseline, nameCount, metaBaseline, metaCount.
  destruct (refresh_trackers d) as [-> ->]. by rewrite Hc.
Qed.

Lemma cacheStore_refresh_views e f (d : Data) :
  _changeCount (cacheStore e f (refresh d)) = _changeCount (refresh d)
  /\ _name (cacheStore e f (refresh d)) = _name (refresh d)
  /\ _metaInfo (cacheStore e f (refresh d)) = _metaInfo (refresh d).
Proof.
  pose proof (refresh_synced d) as [Hs _]%synced_iff.
  destruct (cacheStore_trackers e f (refresh d)) as [-> ->].
  by rewrite cacheStore_count, (settle_id _ Hs).
Qed.

(** One step: the count goes up, or it stays, the baselines stay and the
    targets' own counts do not go down (and one goes up when the step is a
    change). *)
Lemma perform_tracks o (d : Data) l :
  let d' := self (perform o (W d l)) in
  _changeCount d < _changeCount d'
  \/ (_changeCount d' = _changeCount d
      /\ nameBaseline d' = nameBaseline d /\ metaBaseline d' = metaBaseline d
      /\ nameCount d <= nameCount d' /\ metaCount d <= metaCount d'
      /\ (isChange o = true ->
          nameCount d < nameCount d' \/ metaCount d < metaCount d')).
Proof.
  cbn zeta. rewrite perform_self.
  assert (forall x : Data, _changeCount (refresh d) = _changeCount d ->
            _changeCount x = _changeCount (refresh d) ->
            _name x = _name (refresh d) -> _metaInfo x = _metaInfo (refresh d) ->
            (_changeCount d < _changeCount x
             \/ (_changeCount x = _changeCount d
                 /\ nameBaseline x = nameBaseline d
                 /\ metaBaseline x = metaBaseline d
                 /\ nameCount d <= nameCount x /\ metaCount d <= metaCount x
                 /\ (false = true ->
                     nameCount d < nameCount x \/ metaCount d < metaCount x))))
    as Hsame.
  { intros x Hr Hc Hn Hm. right.
    destruct (refresh_views d Hr) as (Hv1 & Hv2 & Hv3 & Hv4).
    unfold nameBaseline, nameCount, metaBaseline, metaCount in *.
    rewrite Hn, Hm, Hv1, Hv2, Hv3, Hv4. repeat split; try done; lia. }
  pose proof (settle_count_bounds d) as Hb.
  destruct o; cbn [isChange].
  - left. rewrite applied_count. lia.
  - left. rewrite applied_count. lia.
  - left. rewrite applied_count. lia.
  - right. repeat split; done || lia.
  - right. repeat split; done || lia.
  - right. repeat split; done || lia.
  - destruct (decide (_changeCount (settle d) = _changeCount d)) as [He|Hne];
      [|left; lia].
    rewrite (settle_same _ He). right. repeat split; done || lia.
  - rewrite <- refresh_count in Hb.
    destruct (decide (_changeCount (refresh d) = _changeCount d)) as [He|Hne];
      [|left; lia].
    by apply Hsame.
  - right. repeat split; done || lia.
  - rewrite <- refresh_count in Hb.
    destruct (wireEncode_self wireFormat d l) as [-> | [sb ->]].
    + destruct (decide (_changeCount (refresh d) = _changeCount d)) as [He|Hne];
        [|left; lia].
      by apply Hsame.
    + destruct (cacheStore_refresh_views sb (Some getDefaultWireFormat) d)
        as (Hc & Hn & Hm).
      destruct (decide (_changeCount (refresh d) = _changeCount d)) as [He|Hne];
        [|left; lia].
      by apply Hsame.
  - destruct (wireDecode_self input wireFormat d l) as [-> | (sb & f & fs & ->)].
    + right. repeat split; done || lia.
    + left. rewrite cacheStore_count.
      pose proof (settle_count_bounds (populate fs d)) as Hp.
      rewrite populate_count in Hp. lia.
  - right. unfold nameBaseline, nameCount, metaBaseline, metaCount. cbn.
    repeat split; try done; try lia; try (intros _; left; lia).
  - right. unfold nameBaseline, nameCount, metaBaseline, metaCount. cbn.
    repeat split; try done; try lia; try (intros _; right; lia).
Qed.

Lemma current_perform c o (d : Data) l :
  current c d -> current c (self (perform o (W d l))).
Proof.
  intros Hc. destruct (perform_tracks o d l) as [Hlt | (He & Hn & Hm & Hcn & Hcm & _)];
    unfold current in *; lia.
Qed.

Lemma owing_perform c o (d : Data) l :
  owing c d -> owing c (self (perform o (W d l))).
Proof.
  intros Hc. destruct (perform_tracks o d l) as [Hlt | (He & Hn & Hm & Hcn & Hcm & _)];
    unfold owing in *; lia.
Qed.

Lemma current_change c o (d : Data) l :
  isChange o = true -> current c d -> owing c (self (perform o (W d l))).
Proof.
  intros Ho Hc.
  destruct (perform_tracks o d l) as [Hlt | (He & Hn & Hm & Hcn & Hcm & Hs)];
    [unfold current, owing in *; lia|].
  specialize (Hs Ho). unfold current, owing in *. lia.
Qed.

Lemma current_run c ops (w : World) :
  current c (self w) -> current c (self (run ops w)).
Proof.
  revert w. induction ops as [|o ops IH]; intros w Hc; [done|].
  rewrite run_cons. apply IH. rewrite (W_eta w). by apply current_perform.
Qed.

Lemma owing_run c ops (w : World) :
  owing c (self w) -> owing c (self (run ops w)).
Proof.
  revert w. induction ops as [|o ops IH]; intros w Hc; [done|].
  rewrite run_cons. apply IH. rewrite (W_eta w). by apply owing_perform.
Qed.

Lemma owing_settle c (d : Data) : owing c d -> c < _changeCount (settle d).
Proof.
  intros [Hlt | (He & Hn & Hm & Hs)].
  - pose proof (settle_count_bounds d). lia.
  - rewrite settle_count_settled; [lia|].
    apply not_true_iff_false. intros [? ?]%settled_views. lia.
Qed.

Lemma run_app ops1 ops2 (w : World) :
  run (ops1 ++ ops2) w = run ops2 (run ops1 w).
Proof. unfold run. apply fold_left_app. Qed.

(** X8. No change is lost: once getChangeCount has returned a value, a
    later getChangeCount returns a strictly greater one if a setter call or
    a change in place of the name or the metaInfo lies between the two,
    whatever other steps lie between them. *)
Theorem getChangeCount_notices_every_change
    (w : World) (ops1 ops2 : list Op) (o : Op) :
  isChange o = true ->
  let w1 := exec getChangeCount w in
  exists c1 c2 : Z,
    fst (getChangeCount w) = Ok c1
    /\ fst (getChangeCount (run (ops1 ++ o :: ops2) w1)) = Ok c2
    /\ c1 < c2.
Proof.
  intros Ho. destruct w as [d l]. cbn zeta. unfold exec.
  rewrite getChangeCount_run. cbn [fst snd].
  set (c := _changeCount (settle d)).
  set (w2 := run (ops1 ++ o :: ops2) (W (settle d) l)).
  exists c, (_changeCount (settle (self w2))).
  split; [done|]. rewrite (W_eta w2), getChangeCount_run. split; [done|].
  apply owing_settle. unfold w2. rewrite run_app, run_cons.
  apply owing_run. rewrite (W_eta (run ops1 _)).
  apply current_change; [done|]. apply current_run. cbn [self]. right.
  pose proof (settle_settled d) as [? ?]%settled_views. unfold c. lia.
Qed.

Lemma inPlace_tracks o (d : Data) l :
  isInPlace o = true ->
  let d' := self (perform o (W d l)) in
  _changeCount d' = _changeCount d
  /\ nameBaseline d' = nameBaseline d /\ metaBaseline d' = metaBaseline d
  /\ nameCount d <= nameCount d' /\ metaCount d <= metaCount d'
  /\ (nameCount d < nameCount d' \/ metaCount d < metaCount d').
Proof.
  intros Ho. destruct o; try done; cbn zeta; cbn [perform];
    unfold nameBaseline, nameCount, metaBaseline, metaCount; cbn;
    repeat split; try done; try lia; ((left; lia) || (right; lia)).
Qed.

Lemma inPlace_run c ops (w : World) :
  forallb isInPlace ops = true ->
  _changeCount (self w) = c ->
  nameBaseline (self w) <= nameCount (self w) ->
  metaBaseline (self w) <= metaCount (self w) ->
  _changeCount (self (run ops w)) = c
  /\ nameBaseline (self (run ops w)) <= nameCount (self (run ops w))
  /\ metaBaseline (self (run ops w)) <= metaCount (self (run ops w))
  /\ (ops ≠ []
      \/ nameBaseline (self w) < nameCount (self w)
      \/ metaBaseline (self w) < metaCount (self w) ->
      nameBaseline (self (run ops w)) < nameCount (self (run ops w))
      \/ metaBaseline (self (run ops w)) < metaCount (self (run ops w))).
Proof.
  revert w. induction ops as [|o ops IH]; intros w Hq Hc Hn Hm.
  { repeat split; try done. intros [?|?]; done. }
  cbn in Hq. apply andb_true_iff in Hq as [Ho Hq].
  rewrite run_cons.
  destruct (inPlace_tracks o (self w) (codecCalls w) Ho)
    as (Hc' & Hbn & Hbm & Hcn & Hcm & Hs).
  rewrite <- W_eta in *.
  destruct (IH (perform o w) Hq) as (IHc & IHn & IHm & IHs); [lia..|].
  split; [done|]. split; [done|]. split; [done|]. intros _.
  apply IHs. right. lia.
Qed.

(** X9. Changes in place are folded into one: after getChangeCount has
    returned c, any number (at least one) of changes in place of the name
    and the metaInfo, with nothing else in between, make the next
    getChangeCount return exactly c + 1. *)
Theorem changes_in_place_count_once (w : World) (ops : list Op) :
  forallb isInPlace ops = true ->
  ops ≠ [] ->
  let w1 := exec getChangeCount w in
  exists c : Z,
    fst (getChangeCount w) = Ok c
    /\ fst (getChangeCount (run ops w1)) = Ok (c + 1).
Proof.
  intros Hq Hne. destruct w as [d l]. cbn zeta. unfold exec.
  rewrite getChangeCount_run. cbn [fst snd].
  exists (_changeCount (settle d)). split; [done|].
  pose proof (settle_settled d) as [Hn Hm]%settled_views.
  destruct (inPlace_run (_changeCount (settle d)) ops (W (settle d) l) Hq)
    as (Hc & Hbn & Hbm & Hs); [done|cbn [self]; lia..|].
  rewrite (W_eta (run ops _)), getChangeCount_run. cbn [fst].
  rewrite settle_count_settled; [by rewrite Hc|].
  apply not_true_iff_false. intros [? ?]%settled_views.
  cbn [self] in Hs. specialize (Hs (or_introl Hne)). lia.
Qed.


(** *** What the methods leave alone *)

Lemma read_fields o (d : Data) l :
  isMutation o = false -> fields (self (perform o (W d l))) = fields d.
Proof.
  intros Ho. rewrite perform_self. destruct o; try done.
  - apply settle_fields.
  - apply refresh_fields.
  - destruct (wireEncode_self wireFormat d l) as [-> | [sb ->]].
    + apply refresh_fields.
    + by rewrite cacheStore_fields, refresh_fields.
Qed.

(** X10. The methods that are no mutation (the getters, getChangeCount,
    getDefaultWireEncoding, getDefaultWireEncodingFormat and wireEncode
    with any format, returning or raising) never change the packet's name
    components, metadata or content, however many of them are called. *)
Theorem reads_keep_name_metaInfo_content (w : World) (ops : list Op) :
  forallb (fun o => negb (isMutation o)) ops = true ->
  fields (self (run ops w)) = fields (self w).
Proof.
  revert w. induction ops as [|o ops IH]; intros w Hq; [done|].
  cbn in Hq. apply andb_true_iff in Hq as [Ho%negb_true_iff Hq].
  rewrite run_cons, (IH _ Hq), (W_eta w). by apply read_fields.
Qed.

Lemma perform_calls o (w : World) :
  match o with
  | CallWireEncode wf =>
      codecCalls (perform o w) = codecCalls w
      \/ codecCalls (perform o w) = codecCalls w ++ [EncodeData wf]
  | CallWireDecode _ wf =>
      codecCalls (perform o w) = codecCalls w ++ [DecodeData wf]
  | _ => codecCalls (perform o w) = codecCalls w
  end.
Proof.
  destruct w as [d l]. destruct o; try done; cbn [perform]; unfold exec.
  - by rewrite getChangeCount_run.
  - by rewrite getDefaultWireEncoding_run.
  - rewrite wireEncode_run. destruct (negb _ && _); [by left|].
    destruct (encodeData _ _) as [[[bs b] e]|x]; by right.
  - rewrite wireDecode_run. by destruct (decodeData _ _) as [[[fs b] e]|x].
Qed.

(** X11. Only wireEncode and wireDecode reach the codec, and the list of
    codec calls only grows: wireDecode makes exactly one decodeData call
    of its format (whether it returns or raises), wireEncode makes no call
    or one encodeData call of its format, every other step makes none; so
    over any run at most one call is made per wireEncode or wireDecode
    step. *)
Theorem codec_calls_accounting (w : World) (ops : list Op) :
  (forall o : Op,
      match o with
      | CallWireEncode wf =>
          codecCalls (perform o w) = codecCalls w
          \/ codecCalls (perform o w) = codecCalls w ++ [EncodeData wf]
      | CallWireDecode _ wf =>
          codecCalls (perform o w) = codecCalls w ++ [DecodeData wf]
      | _ => codecCalls (perform o w) = codecCalls w
      end)
  /\ exists more : list (CodecCall WireFormat),
       codecCalls (run ops w) = codecCalls w ++ more
       /\ (length more <= length (filter (fun o => isCodecStep o = true) ops))%nat.
Proof.
  split; [intros o; apply perform_calls|].
  revert w. induction ops as [|o ops IH]; intros w.
  { exists []. by rewrite app_nil_r. }
  rewrite run_cons. destruct (IH (perform o w)) as (more & -> & Hlen).
  pose proof (perform_calls o w) as Ho.
  destruct o;
    try (exists more; rewrite Ho; split; [done|];
         rewrite filter_cons_False by done; exact Hlen).
  - rewrite filter_cons_True by done. destruct Ho as [-> | ->].
    + exists more. split; [done|]. cbn [length]. lia.
    + exists (EncodeData wireFormat :: more). rewrite <- app_assoc.
      split; [done|]. cbn [length]. lia.
  - rewrite filter_cons_True by done. rewrite Ho.
    exists (DecodeData wireFormat :: more). rewrite <- app_assoc.
    split; [done|]. cbn [length]. lia.
Qed.

Lemma perform_recorded o (d : Data) l :
  _getDefaultWireEncodingChangeCount (self (perform o (W d l)))
  = _getDefaultWireEncodingChangeCount d
  \/ _changeCount d
     <= _getDefaultWireEncodingChangeCount (self (perform o (W d l))).
Proof.
  rewrite perform_self. pose proof (settle_count_bounds d) as Hb.
  destruct o; try by left.
  - left. by destruct (settle_cache d) as (_ & _ & -> & _).
  - rewrite refresh_unfold. case_bool_decide.
    + right. cbn. lia.
    + left. by destruct (settle_cache d) as (_ & _ & -> & _).
  - destruct (wireEncode_self wireFormat d l) as [-> | [sb ->]].
    + rewrite refresh_unfold. case_bool_decide.
      * right. cbn. lia.
      * left. by destruct (settle_cache d) as (_ & _ & -> & _).
    + right. rewrite cacheStore_unfold. cbn.
      pose proof (settle_count_bounds (refresh d)). rewrite refresh_count in *.
      lia.
  - destruct (wireDecode_self input wireFormat d l) as [-> | (sb & f & fs & ->)];
      [by left|].
    right. rewrite cacheStore_unfold. cbn.
    pose proof (settle_count_bounds (populate fs d)) as Hp.
    rewrite populate_count in Hp. lia.
Qed.

Lemma reachable_recorded (w : World) :
  reachable w -> 0 <= _getDefaultWireEncodingChangeCount (self w).
Proof.
  induction 1 as [name calls | w o Hr IH]; [done|].
  pose proof (reachable_Inv _ Hr) as [Hc _ _ _].
  rewrite (W_eta w). destruct (perform_recorded o (self w) (codecCalls w)); lia.
Qed.

(** X12. On every packet a program can hold: the change count recorded
    with the cache is between 0 and the packet's change count, so
    getChangeCount never returns a negative number;
    getDefaultWireEncodingFormat() is None or the default format, never
    another one; and whenever getDefaultWireEncoding() returns a blob that
    is not null, the format is the default one and the blob is the one
    stored. *)
Theorem reachable_counts_and_format (w : World) :
  reachable w ->
  0 <= _getDefaultWireEncodingChangeCount (self w) <= _changeCount (self w)
  /\ (exists c, fst (getChangeCount w) = Ok c /\ 0 <= c)
  /\ (fst (getDefaultWireEncodingFormat w) = Ok None
      \/ fst (getDefaultWireEncodingFormat w) = Ok (Some getDefaultWireFormat))
  /\ (exists e,
        fst (getDefaultWireEncoding w) = Ok e
        /\ (sb_isNull e = false ->
            e = _defaultWireEncoding (self w)
            /\ fst (getDefaultWireEncodingFormat w)
               = Ok (Some getDefaultWireFormat))).
Proof.
  intros Hr. pose proof (reachable_recorded _ Hr) as H0'.
  pose proof (reachable_Inv _ Hr) as HI. pose proof HI as [Hc Hf _ _].
  destruct w as [d l]. cbn [self] in *.
  pose proof (settle_count_bounds d) as Hb.
  split; [lia|]. split.
  { exists (_changeCount (settle d)). rewrite getChangeCount_run. split; [done|lia]. }
  unfold getDefaultWireEncodingFormat, attr, gets. cbn [fst self].
  split; [by destruct Hf as [-> | ->]; [left|right]|].
  exists (_defaultWireEncoding (refresh d)).
  rewrite getDefaultWireEncoding_run. split; [done|]. intros Hn.
  destruct (inv_faithful _ (Inv_refresh _ HI) (refresh_synced d) Hn) as [Hfd _].
  revert Hn Hfd. rewrite refresh_unfold. case_bool_decide; [done|].
  destruct (settle_cache d) as (-> & -> & _). intros _ ->. done.
Qed.

End Coverage.
End data_coverage.

(* ===================================================================== *)
(** ** The IdentityStorage class: more of its behaviour *)
(* ===================================================================== *)

Module identity_storage_coverage.
Section Coverage.
Context {Store IdentityCertificate : Type}.
#[local] Abbreviation IdentityStorage := (IdentityStorage Store IdentityCertificate).

(** X13. getDefaultCertificateNameForIdentity resolves the default key
    name first: when getDefaultKeyNameForIdentity raises, the method
    raises the same exception and leaves the store as that call left it,
    whatever the backend's getDefaultCertificateNameForKey would do; on
    the base class itself this is the RuntimeError of
    getDefaultKeyNameForIdentity. *)
Theorem getDefaultCertificateNameForIdentity_propagates
    (self : IdentityStorage) (identityName : Name) (s s' : Store) (e : Exn) :
  getDefaultKeyNameForIdentity self identityName s = (Raise e, s') ->
  getDefaultCertificateNameForIdentity self identityName s = (Raise e, s')
  /\ getDefaultCertificateNameForIdentity
       (IdentityStorage_base : IdentityStorage) identityName s
     = (Raise (RuntimeError "getDefaultKeyNameForIdentity is not implemented"),
        s).
Proof.
  intros Hk. unfold getDefaultCertificateNameForIdentity, mbind, M_bind.
  by rewrite Hk.
Qed.

End Coverage.
End identity_storage_coverage.

(* ===================================================================== *)
(** ** These theorems at concrete packets and stores *)
(* ===================================================================== *)

Module coverage_examples.
Import fixtures data_facts data_coverage identity_storage_coverage.
#[local] Existing Instance toy.
#[local] Existing Instance observing.

Lemma written_is_reachable : reachable written.
Proof.
  exact (reachable_step _ (CallSetContent (ArgArray hello))
           (reachable_init (ArgOther ["a"; "b"]) [])).
Qed.

Lemma encoded_is_step : encoded = perform (CallWireEncode 0%nat) written.
Proof. vm_compute. reflexivity. Qed.

Lemma encoded_is_reachable : reachable encoded.
Proof.
  rewrite encoded_is_step. exact (reachable_step _ _ written_is_reachable).
Qed.

Lemma fresh_is_reachable : reachable fresh.
Proof. exact (reachable_init (ArgOther ["a"; "b"]) []). Qed.

Lemma written_is_encoded :
  wireEncode getDefaultWireFormat written = (Ok helloBlob, encoded).
Proof. vm_compute. reflexivity. Qed.

Lemma wireEncode_default_never_stale_witness :
  reachable written
  /\ wireEncode getDefaultWireFormat written = (Ok helloBlob, encoded)
  /\ (encodeDirect getDefaultWireFormat (self written) = Ok helloBlob
      \/ exists b e,
           decodeData getDefaultWireFormat (buf (sb_blob helloBlob))
           = Ok (fields (self written), b, e)).
Proof.
  split; [exact written_is_reachable|]. split; [exact written_is_encoded|].
  exact (wireEncode_default_never_stale written encoded helloBlob
           written_is_reachable written_is_encoded).
Defined.

Lemma wireEncode_default_sets_default_encoding_witness :
  wireEncode getDefaultWireFormat written = (Ok helloBlob, encoded)
  /\ getDefaultWireEncoding encoded = (Ok helloBlob, encoded).
Proof.
  split; [exact written_is_encoded|].
  exact (proj1 (wireEncode_default_sets_default_encoding written encoded
                  helloBlob written_is_encoded)).
Defined.

Lemma wire_decodes :
  decodeData getDefaultWireFormat (decodeBuffer (ArgArray wire))
  = Ok ({| f_name := ["a"]; f_metaInfo := (0, None); f_content := Some [x68] |},
        0, 4).
Proof. vm_compute. reflexivity. Qed.

Lemma wireDecode_then_wireEncode_returns_input_witness :
  isNull (Blob_new (ArgArray wire)) = false
  /\ wireEncode getDefaultWireFormat
       (exec (wireDecode (ArgArray wire) getDefaultWireFormat) fresh)
     = (Ok (SignedBlob_new (ArgBlob (Blob_new (ArgArray wire))) 0 4),
        exec (wireDecode (ArgArray wire) getDefaultWireFormat) fresh).
Proof.
  split; [reflexivity|].
  exact (proj1 (wireDecode_then_wireEncode_returns_input fresh (ArgArray wire)
                  _ 0 4 wire_decodes eq_refl)).
Defined.

Lemma setter_hides_default_encoding_witness :
  reachable encoded
  /\ observeDefault (exec (callSetter (SetName (ArgOther ["c"]))) encoded)
     = (Ok SignedBlob_null, Ok None).
Proof.
  split; [exact encoded_is_reachable|].
  exact (proj1 (setter_hides_default_encoding encoded
                  (SetName (ArgOther ["c"])) 0%nat encoded_is_reachable)).
Defined.

Lemma change_in_place_invalidates_cache_witness :
  isInPlace (appendC) = true
  /\ observeDefault (perform (appendC) encoded)
     = (Ok SignedBlob_null, Ok None).
Proof.
  split; [reflexivity|].
  exact (proj1 (change_in_place_invalidates_cache written encoded helloBlob
                  (appendC)
                  written_is_encoded eq_refl)).
Defined.

Lemma fresh_does_not_encode :
  fst (wireEncode getDefaultWireFormat fresh)
  = Raise (WireFormatError "no content").
Proof. vm_compute. reflexivity. Qed.

Lemma wireEncode_default_failure_is_not_cached_witness :
  reachable fresh
  /\ fst (wireEncode getDefaultWireFormat fresh)
     = Raise (WireFormatError "no content")
  /\ encodeData getDefaultWireFormat (fields (self fresh))
     = Raise (WireFormatError "no content").
Proof.
  split; [exact fresh_is_reachable|]. split; [exact fresh_does_not_encode|].
  exact (proj1 (wireEncode_default_failure_is_not_cached fresh _
                  fresh_is_reachable fresh_does_not_encode)).
Defined.

Lemma wireEncode_is_encodeData_without_decode_witness :
  forallb (fun o => negb (isDecode o))
    [setHello; CallWireEncode 0%nat; appendC] = true
  /\ fst (wireEncode 0%nat
            (run [setHello; CallWireEncode 0%nat; appendC]
               {| self := __init__ (ArgOther ["a"; "b"]); codecCalls := [] |}))
     = encodeDirect 0%nat
         (self
            (run [setHello; CallWireEncode 0%nat; appendC]
               {| self := __init__ (ArgOther ["a"; "b"]); codecCalls := [] |})).
Proof.
  split; [reflexivity|].
  exact (wireEncode_is_encodeData_without_decode (ArgOther ["a"; "b"]) []
           [setHello; CallWireEncode 0%nat; appendC] 0%nat eq_refl).
Defined.

Lemma getChangeCount_notices_every_change_witness :
  isChange setHello = true
  /\ exists c1 c2 : Z,
       fst (getChangeCount fresh) = Ok c1
       /\ fst (getChangeCount
                 (run ([CallGetName] ++ setHello :: [CallWireEncode 0%nat])
                    (exec getChangeCount fresh))) = Ok c2
       /\ c1 < c2.
Proof.
  split; [reflexivity|].
  exact (getChangeCount_notices_every_change fresh [CallGetName]
           [CallWireEncode 0%nat] setHello eq_refl).
Defined.

Lemma two_changes_in_place :
  [appendC; retype] ≠ [].
Proof. discriminate. Qed.

Lemma changes_in_place_count_once_witness :
  forallb isInPlace
    [appendC;
     retype] = true
  /\ exists c : Z,
       fst (getChangeCount fresh) = Ok c
       /\ fst (getChangeCount
                 (run [appendC;
                       retype]
                    (exec getChangeCount fresh))) = Ok (c + 1).
Proof.
  split; [reflexivity|].
  exact (changes_in_place_count_once fresh
           [appendC;
            retype]
           eq_refl two_changes_in_place).
Defined.

Lemma reads_keep_name_metaInfo_content_witness :
  forallb (fun o => negb (isMutation o))
    [CallGetChangeCount; CallWireEncode 1%nat; CallGetDefaultWireEncoding]
  = true
  /\ fields (self (run [CallGetChangeCount; CallWireEncode 1%nat;
                        CallGetDefaultWireEncoding] written))
     = fields (self written).
Proof.
  split; [reflexivity|].
  exact (reads_keep_name_metaInfo_content written
           [CallGetChangeCount; CallWireEncode 1%nat;
            CallGetDefaultWireEncoding] eq_refl).
Defined.

Lemma reachable_counts_and_format_witness :
  reachable encoded
  /\ 0 <= _getDefaultWireEncodingChangeCount (self encoded)
       <= _changeCount (self encoded).
Proof.
  split; [exact encoded_is_reachable|].
  exact (proj1 (reachable_counts_and_format encoded encoded_is_reachable)).
Defined.

Lemma getDefaultCertificateNameForIdentity_propagates_witness :
  getDefaultKeyNameForIdentity
    (IdentityStorage_base : IdentityStorage MemoryStore unit) alice store
  = (Raise (RuntimeError "getDefaultKeyNameForIdentity is not implemented"),
     store)
  /\ getDefaultCertificateNameForIdentity
       (IdentityStorage_base : IdentityStorage MemoryStore unit) alice store
     = (Raise (RuntimeError "getDefaultKeyNameForIdentity is not implemented"),
        store).
Proof.
  split; [reflexivity|].
  exact (proj1 (getDefaultCertificateNameForIdentity_propagates
                  (IdentityStorage_base : IdentityStorage MemoryStore unit)
                  alice store store _ eq_refl)).
Defined.

End coverage_examples.
